(** * Collaborative canvas server: operation history and room registry

    A shallow embedding of the two server-side classes of the collaborative
    canvas, [DrawingState] (the per-room operation history with its undo/redo
    index) and [RoomManager] (the registry of rooms, their rosters and the
    delayed clean-up of empty rooms), and of the socket handlers of the
    server that call them, followed by the properties of the design document
    that concern them and by further properties read off the code.

    JavaScript objects that are mutated in place are modelled by explicit
    state passing in a small state monad; [Date.now()] is read from an
    explicit clock; [setTimeout] callbacks are kept in a queue of pending
    timers that the event loop fires when the clock reaches them. *)

From stdpp Require Import base option list gmap strings pretty.
From Stdlib Require Import ZArith Lia.

Local Open Scope Z_scope.

(** ** A state monad for methods that mutate [this] *)

Definition State (S A : Type) : Type := S → A * S.

Definition ret {S A : Type} (a : A) : State S A := λ s, (a, s).

Definition bind {S A B : Type} (m : State S A) (k : A → State S B) : State S B :=
  λ s, let (a, s') := m s in k a s'.

Definition get {S : Type} : State S S := λ s, (s, s).

Definition modify {S : Type} (f : S → S) : State S unit := λ s, (tt, f s).

Definition when {S : Type} (b : bool) (m : State S unit) : State S unit :=
  if b then m else ret tt.

Declare Scope state_scope.
Delimit Scope state_scope with state.
Notation "x <- m ;; k" := (bind m (λ x, k))
  (at level 100, m at next level, right associativity) : state_scope.
Notation "m ;;; k" := (bind m (λ _, k))
  (at level 100, right associativity) : state_scope.

Definition evalState {S A : Type} (m : State S A) (s : S) : A := fst (m s).
Definition execState {S A : Type} (m : State S A) (s : S) : S := snd (m s).

(** ** The JavaScript array operations the server relies on *)

Module JsArray.
Section ops.
Context {A : Type}.

Definition len (a : list A) : Z := Z.of_nat (length a).

(** A relative index as [splice] and [slice] read it: a negative index
    counts from the end, and the result is clamped to [0 .. len]. *)
Definition relative (n i : Z) : Z :=
  if i <? 0 then Z.max (n + i) 0 else Z.min i n.

(** The array that [a.splice(start)] leaves in place: with no delete
    count, every element from [start] on is removed. *)
Definition splice (start : Z) (a : list A) : list A :=
  take (Z.to_nat (relative (len a) start)) a.

(** [a.slice(b, e)]. *)
Definition slice (b e : Z) (a : list A) : list A :=
  let k := relative (len a) b in
  let final := relative (len a) e in
  take (Z.to_nat (final - k)) (drop (Z.to_nat k) a).

(** [a[i]]; [None] stands for [undefined]. *)
Definition at_index (i : Z) (a : list A) : option A :=
  if i <? 0 then None else a !! Z.to_nat i.

(** The array after [a.push(x)]. *)
Definition push (x : A) (a : list A) : list A := a ++ [x].
End ops.
End JsArray.

(** A JavaScript [Map] with string keys: entries are kept in insertion
    order, and setting an existing key keeps its place. *)
Module JsMap.
Section ops.
Context {V : Type}.

Fixpoint get (k : string) (m : list (string * V)) : option V :=
  match m with
  | [] => None
  | (k', v) :: m' => if decide (k = k') then Some v else get k m'
  end.

Fixpoint set (k : string) (v : V) (m : list (string * V)) : list (string * V) :=
  match m with
  | [] => [(k, v)]
  | (k', v') :: m' =>
      if decide (k = k') then (k, v) :: m' else (k', v') :: set k v m'
  end.

Definition delete (k : string) (m : list (string * V)) : list (string * V) :=
  filter (λ kv, kv.1 ≠ k) m.

Definition size (m : list (string * V)) : Z := Z.of_nat (length m).

Definition values (m : list (string * V)) : list V := m.*2.
End ops.
End JsMap.

(** ** The host: [Date.now()] and [setTimeout] *)

(** The one closure the server hands to [setTimeout]: the clean-up check of
    [removeUserFromRoom], which captures the room id. *)
Inductive Callback := CleanupRoom (roomId : string).

Record Timer := { fireAt : Z; callback : Callback }.

Module Host.
(** The process state: the object under study, the clock in milliseconds
    and the timers that have not fired yet, oldest first. *)
Record t (M : Type) := { this : M; clock : Z; timers : list Timer }.
Arguments this {M}.
Arguments clock {M}.
Arguments timers {M}.

Definition start {M : Type} (m : M) : t M :=
  {| this := m; clock := 0; timers := [] |}.

Local Open Scope state_scope.

Definition Date_now {M : Type} : State (t M) Z :=
  h <- get ;; ret (clock h).

Definition setTimeout {M : Type} (cb : Callback) (delay : Z) : State (t M) unit :=
  modify (λ h, {| this := this h; clock := clock h;
                  timers := timers h ++ [ {| fireAt := clock h + delay; callback := cb |} ] |}).

(** Run a method of the object itself. *)
Definition on_this {M A : Type} (m : State M A) : State (t M) A :=
  λ h, let (a, o) := m (this h) in
       (a, {| this := o; clock := clock h; timers := timers h |}).

Definition is_due (now : Z) (tm : Timer) : bool := fireAt tm <=? now.

(** Run the callbacks in the order given. *)
Fixpoint fire {M : Type} (run : Callback → State (t M) unit) (due : list Timer)
    : State (t M) unit :=
  match due with
  | [] => ret tt
  | tm :: due' => run (callback tm) ;;; fire run due'
  end.

(** The clock moves on to [now]: the timers that are due leave the queue
    and their callbacks run, oldest first. Every timer of this server
    has the same delay, so the queue is in firing order. *)
Definition advance {M : Type} (run : Callback → State (t M) unit) (now : Z)
    : State (t M) unit :=
  h <- get ;;
  let now := Z.max (clock h) now in
  modify (λ h, {| this := this h; clock := now;
                  timers := filter (λ tm, is_due now tm = false) (timers h) |}) ;;;
  fire run (filter (λ tm, is_due now tm = true) (timers h)).
End Host.

(** ** drawing-state.js *)

Record Point := { pt_x : Z; pt_y : Z }.

(** The operation object the [stroke-complete] handler builds, before the
    history stamps it. [DrawingState] never inspects it. *)
Module Stroke.
Record t := {
  type : string;
  userId : string;
  username : option string;
  userColor : option string;
  tool : string;
  color : string;
  lineWidth : Z;
  points : list Point
}.
End Stroke.

(** [{...operation, id, timestamp}] *)
Module Operation.
Record t := { operation : Stroke.t; id : Z; timestamp : Z }.
End Operation.

Inductive ResultType := type_undo | type_redo.

(** What [undo] and [redo] return when they do not return [null];
    [operation = None] stands for [undefined]. *)
Module HistoryResult.
Record t := { type : ResultType; operation : option Operation.t; newIndex : Z }.
End HistoryResult.

Module FullState.
Record t := { operations : list Operation.t; currentIndex : Z }.
End FullState.

Module DrawingState.

Record t := { roomId : string; operations : list Operation.t; currentIndex : Z }.

Definition new (roomId : string) : t :=
  {| roomId := roomId; operations := []; currentIndex := -1 |}.

Definition set_operations (f : list Operation.t → list Operation.t) (this : t) : t :=
  {| roomId := roomId this;
     operations := f (operations this);
     currentIndex := currentIndex this |}.

Definition set_currentIndex (f : Z → Z) (this : t) : t :=
  {| roomId := roomId this;
     operations := operations this;
     currentIndex := f (currentIndex this) |}.

Local Open Scope state_scope.

(** [addOperation(operation)]; [now] is the value of [Date.now()]. *)
Definition addOperation (operation : Stroke.t) (now : Z) : State t Z :=
  this <- get ;;
  when (currentIndex this <? JsArray.len (operations this) - 1)
       (modify (set_operations (JsArray.splice (currentIndex this + 1)))) ;;;
  this <- get ;;
  let opWithMetadata :=
    {| Operation.operation := operation;
       Operation.id := JsArray.len (operations this);
       Operation.timestamp := now |} in
  modify (set_operations (JsArray.push opWithMetadata)) ;;;
  modify (set_currentIndex Z.succ) ;;;
  ret (Operation.id opWithMetadata).

Definition undo : State t (option HistoryResult.t) :=
  this <- get ;;
  if currentIndex this <? 0 then ret None
  else
    let operation := JsArray.at_index (currentIndex this) (operations this) in
    modify (set_currentIndex Z.pred) ;;;
    this <- get ;;
    ret (Some {| HistoryResult.type := type_undo;
                 HistoryResult.operation := operation;
                 HistoryResult.newIndex := currentIndex this |}).

Definition redo : State t (option HistoryResult.t) :=
  this <- get ;;
  if currentIndex this >=? JsArray.len (operations this) - 1 then ret None
  else
    modify (set_currentIndex Z.succ) ;;;
    this <- get ;;
    let operation := JsArray.at_index (currentIndex this) (operations this) in
    ret (Some {| HistoryResult.type := type_redo;
                 HistoryResult.operation := operation;
                 HistoryResult.newIndex := currentIndex this |}).

Definition getActiveOperations : State t (list Operation.t) :=
  this <- get ;;
  ret (JsArray.slice 0 (currentIndex this + 1) (operations this)).

Definition getFullState : State t FullState.t :=
  active <- getActiveOperations ;;
  this <- get ;;
  ret {| FullState.operations := active;
         FullState.currentIndex := currentIndex this |}.

Definition clear : State t unit :=
  modify (λ this, {| roomId := roomId this; operations := []; currentIndex := -1 |}).

(** The domain the data model gives the index. *)
Definition index_in_bounds (this : t) : Prop :=
  -1 ≤ currentIndex this ≤ JsArray.len (operations this) - 1.

(** One method call on a history, as the socket handlers issue them. *)
Inductive Call :=
| CallAdd (operation : Stroke.t) (now : Z)
| CallUndo
| CallRedo
| CallGetFullState
| CallClear.

Definition call (c : Call) : State t unit :=
  match c with
  | CallAdd operation now => _ <- addOperation operation now ;; ret tt
  | CallUndo => _ <- undo ;; ret tt
  | CallRedo => _ <- redo ;; ret tt
  | CallGetFullState => _ <- getFullState ;; ret tt
  | CallClear => clear
  end.

Definition calls (cs : list Call) (this : t) : t :=
  foldl (λ this c, execState (call c) this) this cs.

(** The states a history goes through, one per call. *)
Fixpoint states_after (cs : list Call) (this : t) : list t :=
  match cs with
  | [] => []
  | c :: cs' => let this' := execState (call c) this in this' :: states_after cs' this'
  end.

(** The ids that the [addOperation] calls of a run return, in order. *)
Fixpoint ids_returned (cs : list Call) (this : t) : list Z :=
  match cs with
  | [] => []
  | CallAdd operation now :: cs' =>
      let (i, this') := addOperation operation now this in
      i :: ids_returned cs' this'
  | c :: cs' => ids_returned cs' (execState (call c) this)
  end.

End DrawingState.

(** ** rooms.js *)

Module User.
Record t := {
  id : string;
  username : string;
  color : option string;
  cursor : Point;
  joinedAt : Z
}.

Definition set_cursor (c : Point) (u : t) : t :=
  {| id := id u; username := username u; color := color u;
     cursor := c; joinedAt := joinedAt u |}.
End User.

Module Room.
Record t := {
  id : string;
  users : list (string * User.t);
  drawingState : DrawingState.t;
  createdAt : Z
}.

Definition set_users (f : list (string * User.t) → list (string * User.t)) (r : t) : t :=
  {| id := id r; users := f (users r);
     drawingState := drawingState r; createdAt := createdAt r |}.

Definition set_drawingState (ds : DrawingState.t) (r : t) : t :=
  {| id := id r; users := users r; drawingState := ds; createdAt := createdAt r |}.
End Room.

Module RoomManager.

Record t := { rooms : gmap string Room.t; userColors : list string }.

Definition new : t :=
  {| rooms := ∅;
     userColors :=
       [ "#FF6B6B"; "#4ECDC4"; "#45B7D1"; "#FFA07A";
         "#98D8C8"; "#F7DC6F"; "#BB8FCE"; "#85C1E2";
         "#F8B739"; "#52B788" ]%string |}.

Definition set_rooms (f : gmap string Room.t → gmap string Room.t) (this : t) : t :=
  {| rooms := f (rooms this); userColors := userColors this |}.

(** The methods run in the host, for [Date.now()] and [setTimeout]. *)
Local Abbreviation M := (State (Host.t t)).

Local Open Scope state_scope.

(** [rooms.has] then [rooms.set] then [rooms.get]; the room found or made
    is the one the registry holds. *)
Definition getRoom (roomId : string) : M Room.t :=
  this <- Host.on_this get ;;
  match rooms this !! roomId with
  | Some room => ret room
  | None =>
      now <- Host.Date_now ;;
      let room := {| Room.id := roomId;
                     Room.users := [];
                     Room.drawingState := DrawingState.new roomId;
                     Room.createdAt := now |} in
      Host.on_this (modify (set_rooms (insert roomId room))) ;;;
      ret room
  end.

(** [username || `User${n}`]: an absent or empty name gives the default. *)
Definition username_or (username : option string) (n : Z) : string :=
  match username with
  | Some (String a s) => String a s
  | Some EmptyString | None => ("User" +:+ pretty n)%string
  end.

Definition addUserToRoom (roomId socketId : string) (username : option string)
    : M User.t :=
  room <- getRoom roomId ;;
  this <- Host.on_this get ;;
  let colorIndex := JsMap.size (Room.users room) `mod` JsArray.len (userColors this) in
  now <- Host.Date_now ;;
  let user := {| User.id := socketId;
                 User.username := username_or username (JsMap.size (Room.users room) + 1);
                 User.color := JsArray.at_index colorIndex (userColors this);
                 User.cursor := {| pt_x := 0; pt_y := 0 |};
                 User.joinedAt := now |} in
  Host.on_this (modify (set_rooms
    (insert roomId (Room.set_users (JsMap.set socketId user) room)))) ;;;
  ret user.

(** The check the clean-up timer runs when it fires. *)
Definition cleanupRoom (roomId : string) : M unit :=
  this <- Host.on_this get ;;
  match rooms this !! roomId with
  | Some currentRoom =>
      when (JsMap.size (Room.users currentRoom) =? 0)
           (Host.on_this (modify (set_rooms (delete roomId))))
  | None => ret tt
  end.

Definition removeUserFromRoom (roomId socketId : string) : M unit :=
  this <- Host.on_this get ;;
  match rooms this !! roomId with
  | None => ret tt
  | Some room =>
      let room := Room.set_users (JsMap.delete socketId) room in
      Host.on_this (modify (set_rooms (insert roomId room))) ;;;
      when (JsMap.size (Room.users room) =? 0)
           (Host.setTimeout (CleanupRoom roomId) (5 * 60 * 1000))
  end.

(** [None] stands for both [null] (no room) and [undefined] (no user). *)
Definition getUser (roomId socketId : string) : M (option User.t) :=
  this <- Host.on_this get ;;
  match rooms this !! roomId with
  | Some room => ret (JsMap.get socketId (Room.users room))
  | None => ret None
  end.

Definition getRoomUsers (roomId : string) : M (list User.t) :=
  this <- Host.on_this get ;;
  match rooms this !! roomId with
  | Some room => ret (JsMap.values (Room.users room))
  | None => ret []
  end.

(** [user.cursor = cursor] writes through to the roster entry. *)
Definition updateUserCursor (roomId socketId : string) (cursor : Point) : M unit :=
  user <- getUser roomId socketId ;;
  match user with
  | Some user =>
      Host.on_this (modify (set_rooms (alter
        (Room.set_users (JsMap.set socketId (User.set_cursor cursor user))) roomId)))
  | None => ret tt
  end.

Definition getDrawingState (roomId : string) : M DrawingState.t :=
  room <- getRoom roomId ;;
  ret (Room.drawingState room).

(** A method call on the object [getDrawingState roomId] returns: the
    history is the room's own, so the call's effect lands in the room. *)
Definition onDrawingState {A : Type} (roomId : string) (m : State DrawingState.t A)
    : M A :=
  drawingState <- getDrawingState roomId ;;
  let (a, drawingState') := m drawingState in
  Host.on_this (modify (set_rooms (alter (Room.set_drawingState drawingState') roomId))) ;;;
  ret a.

Definition run_callback (cb : Callback) : M unit :=
  match cb with CleanupRoom roomId => cleanupRoom roomId end.

(** What reaches the registry from outside: the socket handlers of the
    server, each reduced to its calls on the registry and the history,
    and the passing of time. *)
Inductive Event :=
| JoinRoom (roomId socketId : string) (username : option string)
| Disconnect (roomId socketId : string)
| StrokeComplete (roomId : string) (operation : Stroke.t)
| Undo (roomId : string)
| Redo (roomId : string)
| ClearCanvas (roomId : string)
| CursorMove (roomId socketId : string) (cursor : Point)
| TimePasses (now : Z).

Definition handle (e : Event) : M unit :=
  match e with
  | JoinRoom roomId socketId username =>
      _ <- addUserToRoom roomId socketId username ;;
      _ <- onDrawingState roomId DrawingState.getFullState ;;
      _ <- getRoomUsers roomId ;;
      ret tt
  | Disconnect roomId socketId =>
      removeUserFromRoom roomId socketId ;;;
      _ <- getRoomUsers roomId ;;
      ret tt
  | StrokeComplete roomId operation =>
      now <- Host.Date_now ;;
      _ <- onDrawingState roomId (DrawingState.addOperation operation now) ;;
      ret tt
  | Undo roomId => _ <- onDrawingState roomId DrawingState.undo ;; ret tt
  | Redo roomId => _ <- onDrawingState roomId DrawingState.redo ;; ret tt
  | ClearCanvas roomId => onDrawingState roomId DrawingState.clear
  | CursorMove roomId socketId cursor => updateUserCursor roomId socketId cursor
  | TimePasses now => Host.advance run_callback now
  end.

Definition run (es : list Event) (h : Host.t t) : Host.t t :=
  foldl (λ h e, execState (handle e) h) h es.

(** The roster and the history of a room, if the registry holds it. *)
Definition roster (roomId : string) (h : Host.t t) : option (list (string * User.t)) :=
  Room.users <$> rooms (Host.this h) !! roomId.

Definition history (roomId : string) (h : Host.t t) : option DrawingState.t :=
  Room.drawingState <$> rooms (Host.this h) !! roomId.

End RoomManager.

(** ** server.js: the socket handlers *)

Module Server.

(** The payload of a [draw] event as the client sends it; the server
    relays it without looking inside. *)
Record DrawData := {
  draw_type : string;
  draw_point : Point;
  draw_tool : option string;
  draw_color : option string;
  draw_lineWidth : option Z
}.

(** The payload of a [stroke-complete] event. *)
Record StrokeData := {
  data_tool : string;
  data_color : string;
  data_lineWidth : Z;
  data_points : list Point
}.

(** What a handler emits, by event name. *)
Inductive Message :=
| room_joined (user : User.t) (users : list User.t) (drawingState : FullState.t)
| user_joined (user : User.t) (users : list User.t)
| user_left (userId : string) (username : string) (users : list User.t)
| draw (data : DrawData) (userId : string) (username userColor : option string)
| operation_added (operation : Stroke.t) (id : Z)
| cursor_move (userId : string) (username : option string) (cursor : Point)
    (color : option string)
| undo_operation (userId : string) (username : option string)
    (operation : option Operation.t) (newIndex : Z)
| redo_operation (userId : string) (username : option string)
    (operation : option Operation.t) (newIndex : Z)
| canvas_cleared (userId : string) (username : option string).

(** Whom an emission goes to: [socket.emit], [socket.to(room).emit] and
    [io.to(room).emit]. *)
Inductive Target :=
| to_sender
| to_others (room : string)
| to_all (room : string).

Record Emission := { target : Target; message : Message }.

(** The variables one connection closes over. [currentUser] is the object
    the roster holds; the handlers read only its name and colour, which
    nothing writes after the join. *)
Record Connection := {
  socket_id : string;
  currentRoom : option string;
  currentUser : option User.t
}.

Definition connect (socket_id : string) : Connection :=
  {| socket_id := socket_id; currentRoom := None; currentUser := None |}.

(** [x || fallback] on a string that may be absent. *)
Definition string_or (x : option string) (fallback : string) : string :=
  match x with
  | Some (String a s) => String a s
  | Some EmptyString | None => fallback
  end.

(** [currentUser?.username] and [currentUser?.color]. *)
Definition username_of (c : Connection) : option string :=
  User.username <$> currentUser c.

Definition color_of (c : Connection) : option string :=
  currentUser c ≫= User.color.

Inductive Request :=
| join_room (roomId username : option string)
| draw_request (data : DrawData)
| stroke_complete (data : StrokeData)
| cursor_move_request (cursor : Point)
| undo
| redo
| clear_canvas
| disconnect.

Local Abbreviation M := (State (Host.t RoomManager.t)).
Local Open Scope state_scope.

Definition on_join_room (roomId username : option string) (c : Connection)
    : M (Connection * list Emission) :=
  let room := string_or roomId "default" in
  user <- RoomManager.addUserToRoom room (socket_id c) username ;;
  fullState <- RoomManager.onDrawingState room DrawingState.getFullState ;;
  roomUsers <- RoomManager.getRoomUsers room ;;
  ret ({| socket_id := socket_id c; currentRoom := Some room; currentUser := Some user |},
       [ {| target := to_sender; message := room_joined user roomUsers fullState |};
         {| target := to_others room; message := user_joined user roomUsers |} ]).

(** The handlers that start with [if (!currentRoom) return;]. *)
Definition in_room (c : Connection)
    (k : string → M (Connection * list Emission)) : M (Connection * list Emission) :=
  match currentRoom c with
  | Some (String a s) => k (String a s)
  | Some EmptyString | None => ret (c, [])
  end.

Definition on_draw (data : DrawData) (c : Connection) : M (Connection * list Emission) :=
  in_room c (λ room,
    ret (c, [ {| target := to_others room;
                 message := draw data (socket_id c) (username_of c) (color_of c) |} ])).

Definition on_stroke_complete (data : StrokeData) (c : Connection)
    : M (Connection * list Emission) :=
  in_room c (λ room,
    let operation :=
      {| Stroke.type := "stroke";
         Stroke.userId := socket_id c;
         Stroke.username := username_of c;
         Stroke.userColor := color_of c;
         Stroke.tool := data_tool data;
         Stroke.color := data_color data;
         Stroke.lineWidth := data_lineWidth data;
         Stroke.points := data_points data |} in
    now <- Host.Date_now ;;
    operationId <- RoomManager.onDrawingState room
                     (DrawingState.addOperation operation now) ;;
    ret (c, [ {| target := to_all room;
                 message := operation_added operation operationId |} ])).

Definition on_cursor_move (cursor : Point) (c : Connection)
    : M (Connection * list Emission) :=
  in_room c (λ room,
    RoomManager.updateUserCursor room (socket_id c) cursor ;;;
    ret (c, [ {| target := to_others room;
                 message := cursor_move (socket_id c) (username_of c) cursor (color_of c) |} ])).

Definition on_undo (c : Connection) : M (Connection * list Emission) :=
  in_room c (λ room,
    result <- RoomManager.onDrawingState room DrawingState.undo ;;
    match result with
    | Some result =>
        ret (c, [ {| target := to_all room;
                     message := undo_operation (socket_id c) (username_of c)
                                  (HistoryResult.operation result)
                                  (HistoryResult.newIndex result) |} ])
    | None => ret (c, [])
    end).

Definition on_redo (c : Connection) : M (Connection * list Emission) :=
  in_room c (λ room,
    result <- RoomManager.onDrawingState room DrawingState.redo ;;
    match result with
    | Some result =>
        ret (c, [ {| target := to_all room;
                     message := redo_operation (socket_id c) (username_of c)
                                  (HistoryResult.operation result)
                                  (HistoryResult.newIndex result) |} ])
    | None => ret (c, [])
    end).

Definition on_clear_canvas (c : Connection) : M (Connection * list Emission) :=
  in_room c (λ room,
    RoomManager.onDrawingState room DrawingState.clear ;;;
    ret (c, [ {| target := to_all room;
                 message := canvas_cleared (socket_id c) (username_of c) |} ])).

(** [if (currentRoom && currentUser) { ... }] *)
Definition on_disconnect (c : Connection) : M (Connection * list Emission) :=
  match currentRoom c, currentUser c with
  | Some (String a s), Some user =>
      let room := String a s in
      RoomManager.removeUserFromRoom room (socket_id c) ;;;
      roomUsers <- RoomManager.getRoomUsers room ;;
      ret (c, [ {| target := to_others room;
                   message := user_left (socket_id c) (User.username user) roomUsers |} ])
  | _, _ => ret (c, [])
  end.

Definition on (r : Request) (c : Connection) : M (Connection * list Emission) :=
  match r with
  | join_room roomId username => on_join_room roomId username c
  | draw_request data => on_draw data c
  | stroke_complete data => on_stroke_complete data c
  | cursor_move_request cursor => on_cursor_move cursor c
  | undo => on_undo c
  | redo => on_redo c
  | clear_canvas => on_clear_canvas c
  | disconnect => on_disconnect c
  end.

(** The connection, the emissions and the registry after a request. *)
Definition connection_after (r : Request) (c : Connection) (h : Host.t RoomManager.t)
    : Connection :=
  fst (evalState (on r c) h).

Definition emitted (r : Request) (c : Connection) (h : Host.t RoomManager.t)
    : list Emission :=
  snd (evalState (on r c) h).

Definition registry_after (r : Request) (c : Connection) (h : Host.t RoomManager.t)
    : Host.t RoomManager.t :=
  execState (on r c) h.

End Server.

(** ** server.js: all connections together *)

Module World.

(** What reaches the process: a request on one socket, or time passing.
    A socket id not seen before is a new connection. *)
Inductive Input :=
| from_socket (socket_id : string) (r : Server.Request)
| time_passes (now : Z).

(** The open connections, each with the variables its handlers close
    over, and the registry they share. *)
Record t := {
  connections : gmap string Server.Connection;
  host : Host.t RoomManager.t
}.

Definition start : t :=
  {| connections := ∅; host := Host.start RoomManager.new |}.

Definition step (i : Input) (w : t) : t * list Server.Emission :=
  match i with
  | from_socket socket_id r =>
      let c := default (Server.connect socket_id) (connections w !! socket_id) in
      let '((c', out), h') := Server.on r c (host w) in
      ({| connections :=
            match r with
            | Server.disconnect => delete socket_id (connections w)
            | _ => <[socket_id := c']> (connections w)
            end;
          host := h' |},
       out)
  | time_passes now =>
      ({| connections := connections w;
          host := execState (Host.advance RoomManager.run_callback now) (host w) |},
       [])
  end.

Definition run (inputs : list Input) (w : t) : t :=
  foldl (λ w i, fst (step i w)) w inputs.

End World.

(** ** Vocabulary of the properties *)

(** Every stored operation carries its own position as id, so the ids of
    the operations stored at one time are 0, 1, 2, ... in order. *)
Definition ids_are_positions (this : DrawingState.t) : Prop :=
  ∀ (i : nat) (op : Operation.t),
    DrawingState.operations this !! i = Some op → Operation.id op = Z.of_nat i.

(** The number of sessions a room holds when a call arrives; a room the
    registry does not hold yet is made with none. *)
Definition roster_size (roomId : string) (h : Host.t RoomManager.t) : Z :=
  match RoomManager.rooms (Host.this h) !! roomId with
  | Some room => JsMap.size (Room.users room)
  | None => 0
  end.

(** The registry with one room put in place. *)
Definition with_room (roomId : string) (room : Room.t) (h : Host.t RoomManager.t)
    : Host.t RoomManager.t :=
  {| Host.this := RoomManager.set_rooms (insert roomId room) (Host.this h);
     Host.clock := Host.clock h;
     Host.timers := Host.timers h |}.

(** The room [getRoom] makes for an unseen id. *)
Definition fresh_room (roomId : string) (now : Z) : Room.t :=
  {| Room.id := roomId;
     Room.users := [];
     Room.drawingState := DrawingState.new roomId;
     Room.createdAt := now |}.

(** The grace period of the clean-up, in milliseconds. *)
Definition grace : Z := 5 * 60 * 1000.

(** The room the registry holds under an id, if any. *)
Definition room_at (roomId : string) (h : Host.t RoomManager.t) : option Room.t :=
  RoomManager.rooms (Host.this h) !! roomId.

(** A roster entry as [addUserToRoom] makes it: the user carries the socket
    id it is stored under, a colour of the palette and a name that is not
    empty. *)
Definition user_ok (socketId : string) (user : User.t) : Prop :=
  User.id user = socketId
  ∧ (∃ c : string, User.color user = Some c
                   ∧ c ∈ RoomManager.userColors RoomManager.new)
  ∧ User.username user ≠ ""%string.

(** A room as the registry keeps it under an id: the room and its history
    carry that id, the history is within its index domain with every stored
    operation's id its position, no socket is in the roster twice and every
    roster entry is well formed. *)
Definition room_ok (roomId : string) (room : Room.t) : Prop :=
  Room.id room = roomId
  ∧ DrawingState.roomId (Room.drawingState room) = roomId
  ∧ DrawingState.index_in_bounds (Room.drawingState room)
  ∧ ids_are_positions (Room.drawingState room)
  ∧ NoDup (Room.users room).*1
  ∧ ∀ (socketId : string) (user : User.t),
      (socketId, user) ∈ Room.users room → user_ok socketId user.

Definition registry_ok (h : Host.t RoomManager.t) : Prop :=
  RoomManager.userColors (Host.this h) = RoomManager.userColors RoomManager.new
  ∧ ∀ (roomId : string) (room : Room.t),
      room_at roomId h = Some room → room_ok roomId room.

(** The history a call for a room works on: the room's own, or the empty
    one of the room [getRoom] makes. *)
Definition history_or_new (roomId : string) (h : Host.t RoomManager.t) : DrawingState.t :=
  default (DrawingState.new roomId) (RoomManager.history roomId h).

(** The room a request of a connection is about: the room named in a
    [join-room], and the connection's current room otherwise. *)
Definition addressed_room (r : Server.Request) (c : Server.Connection) : option string :=
  match r with
  | Server.join_room roomId _ => Some (Server.string_or roomId "default")
  | _ => Server.currentRoom c
  end.

(** The room a connection has joined: [currentRoom] when it is set and
    not empty. *)
Definition joined_room (c : Server.Connection) : option string :=
  match Server.currentRoom c with
  | Some (String a s) => Some (String a s)
  | Some EmptyString | None => None
  end.

(** The operation object the [stroke-complete] handler builds. *)
Definition operation_of (data : Server.StrokeData) (c : Server.Connection) : Stroke.t :=
  {| Stroke.type := "stroke";
     Stroke.userId := Server.socket_id c;
     Stroke.username := Server.username_of c;
     Stroke.userColor := Server.color_of c;
     Stroke.tool := Server.data_tool data;
     Stroke.color := Server.data_color data;
     Stroke.lineWidth := Server.data_lineWidth data;
     Stroke.points := Server.data_points data |}.

(** A request seen from the registry: the event it amounts to, if it
    reaches the registry at all. *)
Definition event_of (r : Server.Request) (c : Server.Connection)
    : option RoomManager.Event :=
  match r with
  | Server.join_room roomId username =>
      Some (RoomManager.JoinRoom (Server.string_or roomId "default")
                                 (Server.socket_id c) username)
  | Server.draw_request _ => None
  | Server.stroke_complete data =>
      (λ room, RoomManager.StrokeComplete room (operation_of data c)) <$> joined_room c
  | Server.cursor_move_request cursor =>
      (λ room, RoomManager.CursorMove room (Server.socket_id c) cursor) <$> joined_room c
  | Server.undo => RoomManager.Undo <$> joined_room c
  | Server.redo => RoomManager.Redo <$> joined_room c
  | Server.clear_canvas => RoomManager.ClearCanvas <$> joined_room c
  | Server.disconnect =>
      match Server.currentUser c with
      | Some _ => (λ room, RoomManager.Disconnect room (Server.socket_id c)) <$> joined_room c
      | None => None
      end
  end.

(** The room an event is about; the passing of time is about none. *)
Definition event_room (e : RoomManager.Event) : option string :=
  match e with
  | RoomManager.JoinRoom roomId _ _ | RoomManager.Disconnect roomId _
  | RoomManager.StrokeComplete roomId _ | RoomManager.Undo roomId
  | RoomManager.Redo roomId | RoomManager.ClearCanvas roomId
  | RoomManager.CursorMove roomId _ _ => Some roomId
  | RoomManager.TimePasses _ => None
  end.

(** A socket is listed in a room: the registry holds the room and its
    roster has an entry for the socket. *)
Definition listed (socketId roomId : string) (h : Host.t RoomManager.t) : Prop :=
  ∃ users : list (string * User.t),
    RoomManager.roster roomId h = Some users ∧ is_Some (JsMap.get socketId users).

(** Every open connection is filed under its own socket id, and one that
    has joined has a room name that is not empty, a user, and an entry in
    that room's roster. *)
Definition connections_ok (w : World.t) : Prop :=
  ∀ (socketId : string) (c : Server.Connection),
    World.connections w !! socketId = Some c →
    Server.socket_id c = socketId
    ∧ ∀ room : string,
        Server.currentRoom c = Some room →
        room ≠ ""%string
        ∧ is_Some (Server.currentUser c)
        ∧ listed socketId room (World.host w).

(** The requests that are meant to change a room's history. *)
Definition edits_history (r : Server.Request) : bool :=
  match r with
  | Server.stroke_complete _ | Server.undo | Server.redo | Server.clear_canvas => true
  | _ => false
  end.

(** The socket ids of a room's roster, in the order of the roster. *)
Definition roster_sockets (roomId : string) (h : Host.t RoomManager.t)
    : option (list string) :=
  (λ users : list (string * User.t), users.*1) <$> RoomManager.roster roomId h.

(** The timer [removeUserFromRoom] arms for a room at a given moment. *)
Definition cleanup_timer (roomId : string) (now : Z) : Timer :=
  {| fireAt := now + grace; callback := CleanupRoom roomId |}.

(** ** Sample data for the examples *)

Definition stroke_by (userId : string) : Stroke.t :=
  {| Stroke.type := "stroke";
     Stroke.userId := userId;
     Stroke.username := Some ("User1")%string;
     Stroke.userColor := Some ("#FF6B6B")%string;
     Stroke.tool := "brush";
     Stroke.color := "#000000";
     Stroke.lineWidth := 3;
     Stroke.points := [ {| pt_x := 10; pt_y := 20 |}; {| pt_x := 11; pt_y := 22 |} ] |}.

Definition stored (userId : string) (id now : Z) : Operation.t :=
  {| Operation.operation := stroke_by userId;
     Operation.id := id;
     Operation.timestamp := now |}.

(** A history of three operations of which only the first is active. *)
Definition history_undone_twice : DrawingState.t :=
  {| DrawingState.roomId := "r1";
     DrawingState.operations := [ stored "s1" 0 100; stored "s2" 1 200; stored "s1" 2 300 ];
     DrawingState.currentIndex := 0 |}.

(** The same operations, all active. *)
Definition history_all_active : DrawingState.t :=
  {| DrawingState.roomId := "r1";
     DrawingState.operations := [ stored "s1" 0 100; stored "s2" 1 200; stored "s1" 2 300 ];
     DrawingState.currentIndex := 2 |}.

(** * Properties *)

(** ** Array and map facts *)

Section array_facts.
Context {A : Type}.
Implicit Types (a : list A) (i n : Z).

Lemma len_nonneg a : 0 ≤ JsArray.len a.
Proof. unfold JsArray.len. lia. Qed.

Lemma len_push a (x : A) : JsArray.len (JsArray.push x a) = JsArray.len a + 1.
Proof. unfold JsArray.len, JsArray.push. rewrite length_app. simpl. lia. Qed.

Lemma len_take a n :
  0 ≤ n ≤ JsArray.len a → JsArray.len (take (Z.to_nat n) a) = n.
Proof. unfold JsArray.len. intros Hn. rewrite length_take. lia. Qed.

(** Inside the array, [splice] keeps exactly the first [start] elements. *)
Lemma splice_prefix a start :
  0 ≤ start ≤ JsArray.len a → JsArray.splice start a = take (Z.to_nat start) a.
Proof.
  intros Hs. unfold JsArray.splice, JsArray.relative.
  destruct (Z.ltb_spec start 0); [lia|].
  by rewrite Z.min_l by lia.
Qed.

(** Inside the array, [slice(0, e)] is the prefix of length [e]. *)
Lemma slice_prefix a e :
  0 ≤ e ≤ JsArray.len a → JsArray.slice 0 e a = take (Z.to_nat e) a.
Proof.
  intros He. unfold JsArray.slice, JsArray.relative.
  destruct (Z.ltb_spec e 0); [lia|].
  destruct (Z.ltb_spec 0 0); [lia|].
  rewrite Z.min_l, Z.min_l by (pose proof (len_nonneg a); lia).
  by rewrite Z.sub_0_r.
Qed.

Lemma at_index_lookup a i :
  0 ≤ i → JsArray.at_index i a = a !! Z.to_nat i.
Proof. intros Hi. unfold JsArray.at_index. by destruct (Z.ltb_spec i 0); [lia|]. Qed.

Lemma at_index_is_Some a i :
  0 ≤ i < JsArray.len a → is_Some (JsArray.at_index i a).
Proof.
  intros Hi. rewrite at_index_lookup by lia.
  apply lookup_lt_is_Some. unfold JsArray.len in Hi. lia.
Qed.
End array_facts.

(** ** The operation history *)

Ltac unfold_history :=
  unfold DrawingState.call, DrawingState.undo, DrawingState.redo,
    DrawingState.getFullState, DrawingState.getActiveOperations,
    DrawingState.clear, DrawingState.set_currentIndex, DrawingState.set_operations,
    execState, evalState, bind, when, get, modify, ret in *.

(** [addOperation] in one step: what is kept, what is stored, what is
    returned. *)
Lemma addOperation_unfold (operation : Stroke.t) (now : Z) (this : DrawingState.t) :
  DrawingState.addOperation operation now this =
    let kept :=
      if DrawingState.currentIndex this <? JsArray.len (DrawingState.operations this) - 1
      then JsArray.splice (DrawingState.currentIndex this + 1) (DrawingState.operations this)
      else DrawingState.operations this in
    let opWithMetadata :=
      {| Operation.operation := operation;
         Operation.id := JsArray.len kept;
         Operation.timestamp := now |} in
    (JsArray.len kept,
     {| DrawingState.roomId := DrawingState.roomId this;
        DrawingState.operations := JsArray.push opWithMetadata kept;
        DrawingState.currentIndex := Z.succ (DrawingState.currentIndex this) |}).
Proof.
  unfold DrawingState.addOperation. unfold_history.
  by destruct (_ <? _).
Qed.

Lemma undo_unfold (this : DrawingState.t) :
  DrawingState.undo this =
    if DrawingState.currentIndex this <? 0 then (None, this)
    else
      (Some {| HistoryResult.type := type_undo;
               HistoryResult.operation :=
                 JsArray.at_index (DrawingState.currentIndex this) (DrawingState.operations this);
               HistoryResult.newIndex := Z.pred (DrawingState.currentIndex this) |},
       DrawingState.set_currentIndex Z.pred this).
Proof. unfold_history. by destruct (_ <? _). Qed.

Lemma redo_unfold (this : DrawingState.t) :
  DrawingState.redo this =
    if DrawingState.currentIndex this >=? JsArray.len (DrawingState.operations this) - 1
    then (None, this)
    else
      (Some {| HistoryResult.type := type_redo;
               HistoryResult.operation :=
                 JsArray.at_index (Z.succ (DrawingState.currentIndex this))
                                  (DrawingState.operations this);
               HistoryResult.newIndex := Z.succ (DrawingState.currentIndex this) |},
       DrawingState.set_currentIndex Z.succ this).
Proof. unfold_history. by destruct (_ >=? _). Qed.

Lemma getFullState_unfold (this : DrawingState.t) :
  DrawingState.getFullState this =
    ({| FullState.operations :=
          JsArray.slice 0 (DrawingState.currentIndex this + 1) (DrawingState.operations this);
        FullState.currentIndex := DrawingState.currentIndex this |},
     this).
Proof. by unfold_history. Qed.

Lemma addOperation_in_bounds operation now this :
  DrawingState.index_in_bounds this →
  DrawingState.index_in_bounds (execState (DrawingState.addOperation operation now) this).
Proof.
  unfold DrawingState.index_in_bounds, execState. intros Hb.
  rewrite addOperation_unfold. cbn. rewrite len_push.
  destruct (Z.ltb_spec (DrawingState.currentIndex this)
                       (JsArray.len (DrawingState.operations this) - 1)).
  - rewrite splice_prefix, len_take by lia. lia.
  - lia.
Qed.

Lemma call_in_bounds (c : DrawingState.Call) (this : DrawingState.t) :
  DrawingState.index_in_bounds this →
  DrawingState.index_in_bounds (execState (DrawingState.call c) this).
Proof.
  intros Hb. destruct c as [operation now| | | |].
  - pose proof (addOperation_in_bounds operation now this Hb) as H.
    unfold execState, DrawingState.call, bind in *.
    by destruct (DrawingState.addOperation operation now this).
  - unfold execState, DrawingState.call, bind. rewrite undo_unfold.
    unfold DrawingState.index_in_bounds in *.
    destruct (Z.ltb_spec (DrawingState.currentIndex this) 0); cbn; lia.
  - unfold execState, DrawingState.call, bind. rewrite redo_unfold.
    unfold DrawingState.index_in_bounds in *.
    destruct (Z.geb_spec (DrawingState.currentIndex this)
                (JsArray.len (DrawingState.operations this) - 1)); cbn; lia.
  - unfold execState, DrawingState.call, bind. by rewrite getFullState_unfold.
  - unfold DrawingState.index_in_bounds, JsArray.len. unfold_history. cbn. lia.
Qed.

Lemma new_in_bounds (roomId : string) :
  DrawingState.index_in_bounds (DrawingState.new roomId).
Proof. unfold DrawingState.index_in_bounds, JsArray.len. cbn. lia. Qed.

Lemma states_after_in_bounds (cs : list DrawingState.Call) (this : DrawingState.t) :
  DrawingState.index_in_bounds this →
  Forall DrawingState.index_in_bounds (DrawingState.states_after cs this).
Proof.
  revert this. induction cs as [|c cs IH]; intros this Hb; cbn.
  - constructor.
  - constructor; [|apply IH]; by apply call_in_bounds.
Qed.

(** C1. On a history whose index is below the last position, [addOperation]
    first cuts the stored operations down to the prefix of length
    [currentIndex + 1], then appends the new operation and leaves the index
    on the last position. In particular, from the history [[A; B; C]] with
    index 2, undo, undo, add D gives [[A; D]] with index 1. *)
Theorem addOperation_truncates_future :
  (∀ (this : DrawingState.t) (operation : Stroke.t) (now : Z),
     -1 ≤ DrawingState.currentIndex this
        < JsArray.len (DrawingState.operations this) - 1 →
     let kept :=
       take (Z.to_nat (DrawingState.currentIndex this + 1)) (DrawingState.operations this) in
     let opWithMetadata :=
       {| Operation.operation := operation;
          Operation.id := DrawingState.currentIndex this + 1;
          Operation.timestamp := now |} in
     let this' := execState (DrawingState.addOperation operation now) this in
     DrawingState.addOperation operation now this =
       (DrawingState.currentIndex this + 1,
        {| DrawingState.roomId := DrawingState.roomId this;
           DrawingState.operations := kept ++ [opWithMetadata];
           DrawingState.currentIndex := DrawingState.currentIndex this + 1 |})
     ∧ JsArray.len kept = DrawingState.currentIndex this + 1
     ∧ DrawingState.currentIndex this' = JsArray.len (DrawingState.operations this') - 1)
  ∧
  (∀ (roomId : string) (A B C : Operation.t) (D : Stroke.t) (now : Z),
     DrawingState.calls
       [DrawingState.CallUndo; DrawingState.CallUndo; DrawingState.CallAdd D now]
       {| DrawingState.roomId := roomId;
          DrawingState.operations := [A; B; C];
          DrawingState.currentIndex := 2 |}
     = {| DrawingState.roomId := roomId;
          DrawingState.operations :=
            [A; {| Operation.operation := D; Operation.id := 1; Operation.timestamp := now |}];
          DrawingState.currentIndex := 1 |}).
Proof.
  split.
  - intros this operation now Hci kept opWithMetadata this'.
    assert (Hlen : JsArray.len kept = DrawingState.currentIndex this + 1).
    { subst kept. apply len_take. lia. }
    assert (Hadd : DrawingState.addOperation operation now this =
      (DrawingState.currentIndex this + 1,
        {| DrawingState.roomId := DrawingState.roomId this;
           DrawingState.operations := kept ++ [opWithMetadata];
           DrawingState.currentIndex := DrawingState.currentIndex this + 1 |})).
    { rewrite addOperation_unfold. cbn zeta.
      destruct (Z.ltb_spec (DrawingState.currentIndex this)
                  (JsArray.len (DrawingState.operations this) - 1)); [|lia].
      rewrite splice_prefix by lia. fold kept. rewrite Hlen.
      reflexivity. }
    split; [exact Hadd|]. split; [exact Hlen|].
    subst this'. unfold execState. rewrite Hadd. cbn.
    change (kept ++ [opWithMetadata]) with (JsArray.push opWithMetadata kept).
    rewrite len_push. lia.
  - intros roomId A B C D now. reflexivity.
Qed.

(** Adding to the sample history in which two of three operations are undone. *)
Lemma addOperation_truncates_future_witness :
  DrawingState.addOperation (stroke_by "s2") 400 history_undone_twice =
    (1, {| DrawingState.roomId := "r1";
           DrawingState.operations := [ stored "s1" 0 100; stored "s2" 1 400 ];
           DrawingState.currentIndex := 1 |}).
Proof.
  destruct (proj1 addOperation_truncates_future
              history_undone_twice (stroke_by "s2") 400) as [Hadd _].
  - unfold JsArray.len. simpl. lia.
  - exact Hadd.
Defined.

(** C2. Starting from the empty history, after every call of any sequence
    of addOperation, undo, redo, getFullState and clear, the index lies
    between -1 and the last position. *)
Theorem currentIndex_always_in_bounds (roomId : string) (cs : list DrawingState.Call) :
  Forall DrawingState.index_in_bounds
         (DrawingState.states_after cs (DrawingState.new roomId)).
Proof. apply states_after_in_bounds, new_in_bounds. Qed.

(** C3. Where undo succeeds, undo followed at once by redo hands back the
    same operation twice, the one at the original index, and leaves the
    history (operations and index) as it was. *)
Theorem undo_redo_round_trip (this : DrawingState.t) :
  DrawingState.index_in_bounds this →
  0 ≤ DrawingState.currentIndex this →
  ∃ (op : Operation.t) (this1 : DrawingState.t),
    DrawingState.operations this !! Z.to_nat (DrawingState.currentIndex this) = Some op
    ∧ DrawingState.undo this =
        (Some {| HistoryResult.type := type_undo;
                 HistoryResult.operation := Some op;
                 HistoryResult.newIndex := DrawingState.currentIndex this - 1 |},
         this1)
    ∧ DrawingState.operations this1 = DrawingState.operations this
    ∧ DrawingState.redo this1 =
        (Some {| HistoryResult.type := type_redo;
                 HistoryResult.operation := Some op;
                 HistoryResult.newIndex := DrawingState.currentIndex this |},
         this).
Proof.
  intros Hb Hci. unfold DrawingState.index_in_bounds in Hb.
  destruct (at_index_is_Some (DrawingState.operations this)
              (DrawingState.currentIndex this)) as [op Hop]; [lia|].
  exists op, (DrawingState.set_currentIndex Z.pred this).
  split; [by rewrite <- at_index_lookup|].
  split; [|split; [done|]].
  - rewrite undo_unfold.
    destruct (Z.ltb_spec (DrawingState.currentIndex this) 0); [lia|].
    by rewrite Hop.
  - rewrite redo_unfold. cbn.
    destruct (Z.geb_spec (Z.pred (DrawingState.currentIndex this))
                (JsArray.len (DrawingState.operations this) - 1)); [lia|].
    rewrite Z.succ_pred, Hop. destruct this as [r ops ci].
    unfold DrawingState.set_currentIndex. cbn. by rewrite Z.succ_pred.
Qed.

(** The round trip on the sample history with all three operations active. *)
Lemma undo_redo_round_trip_witness :
  ∃ (op : Operation.t) (this1 : DrawingState.t),
    DrawingState.operations history_all_active !! 2%nat = Some op
    ∧ HistoryResult.operation <$> evalState DrawingState.undo history_all_active
      = Some (Some op)
    ∧ DrawingState.redo this1 =
        (Some {| HistoryResult.type := type_redo;
                 HistoryResult.operation := Some op;
                 HistoryResult.newIndex := 2 |},
         history_all_active).
Proof.
  destruct (undo_redo_round_trip history_all_active) as (op & this1 & Hop & Hu & _ & Hr).
  - unfold DrawingState.index_in_bounds, JsArray.len. simpl. lia.
  - simpl. lia.
  - exists op, this1. split; [exact Hop|]. split; [|exact Hr].
    unfold evalState. rewrite Hu. reflexivity.
Defined.

(** C4. [undo] returns nothing exactly when the index is negative;
    otherwise it returns the operation at the index with the new index one
    lower, lowers the index and keeps every stored operation. [redo] returns
    nothing exactly when the index is on or past the last position;
    otherwise it raises the index and returns the operation now under it
    with that new index. *)
Theorem undo_redo_results (this : DrawingState.t) :
  (evalState DrawingState.undo this = None ↔ DrawingState.currentIndex this < 0)
  ∧ (evalState DrawingState.redo this = None ↔
       DrawingState.currentIndex this >= JsArray.len (DrawingState.operations this) - 1)
  ∧ (DrawingState.index_in_bounds this →
       (0 ≤ DrawingState.currentIndex this →
          ∃ op : Operation.t,
            DrawingState.operations this !! Z.to_nat (DrawingState.currentIndex this)
              = Some op
            ∧ DrawingState.undo this =
                (Some {| HistoryResult.type := type_undo;
                         HistoryResult.operation := Some op;
                         HistoryResult.newIndex := DrawingState.currentIndex this - 1 |},
                 {| DrawingState.roomId := DrawingState.roomId this;
                    DrawingState.operations := DrawingState.operations this;
                    DrawingState.currentIndex := DrawingState.currentIndex this - 1 |}))
       ∧ (DrawingState.currentIndex this < JsArray.len (DrawingState.operations this) - 1 →
          ∃ op : Operation.t,
            DrawingState.operations this !! Z.to_nat (DrawingState.currentIndex this + 1)
              = Some op
            ∧ DrawingState.redo this =
                (Some {| HistoryResult.type := type_redo;
                         HistoryResult.operation := Some op;
                         HistoryResult.newIndex := DrawingState.currentIndex this + 1 |},
                 {| DrawingState.roomId := DrawingState.roomId this;
                    DrawingState.operations := DrawingState.operations this;
                    DrawingState.currentIndex := DrawingState.currentIndex this + 1 |}))).
Proof.
  split; [|split].
  - unfold evalState. rewrite undo_unfold.
    destruct (Z.ltb_spec (DrawingState.currentIndex this) 0); cbn.
    + done.
    + split; [done|lia].
  - unfold evalState. rewrite redo_unfold.
    destruct (Z.geb_spec (DrawingState.currentIndex this)
                (JsArray.len (DrawingState.operations this) - 1)); cbn.
    + split; [lia|done].
    + split; [done|lia].
  - intros Hb. unfold DrawingState.index_in_bounds in Hb. split.
    + intros Hci.
      destruct (at_index_is_Some (DrawingState.operations this)
                  (DrawingState.currentIndex this)) as [op Hop]; [lia|].
      exists op. split; [by rewrite <- at_index_lookup|].
      rewrite undo_unfold.
      destruct (Z.ltb_spec (DrawingState.currentIndex this) 0); [lia|].
      by rewrite Hop.
    + intros Hci.
      destruct (at_index_is_Some (DrawingState.operations this)
                  (DrawingState.currentIndex this + 1)) as [op Hop]; [lia|].
      exists op. split; [by rewrite <- at_index_lookup by lia|].
      rewrite redo_unfold.
      destruct (Z.geb_spec (DrawingState.currentIndex this)
                  (JsArray.len (DrawingState.operations this) - 1)); [lia|].
      unfold Z.succ. by rewrite Hop.
Qed.

(** Undo and redo on the sample history with index 0 of three operations. *)
Lemma undo_redo_results_witness :
  DrawingState.undo history_undone_twice =
    (Some {| HistoryResult.type := type_undo;
             HistoryResult.operation := Some (stored "s1" 0 100);
             HistoryResult.newIndex := -1 |},
     {| DrawingState.roomId := "r1";
        DrawingState.operations := DrawingState.operations history_undone_twice;
        DrawingState.currentIndex := -1 |})
  ∧ DrawingState.redo history_undone_twice =
    (Some {| HistoryResult.type := type_redo;
             HistoryResult.operation := Some (stored "s2" 1 200);
             HistoryResult.newIndex := 1 |},
     {| DrawingState.roomId := "r1";
        DrawingState.operations := DrawingState.operations history_undone_twice;
        DrawingState.currentIndex := 1 |}).
Proof.
  destruct (undo_redo_results history_undone_twice) as (_ & _ & H).
  destruct H as [Hundo Hredo].
  - unfold DrawingState.index_in_bounds, JsArray.len. simpl. lia.
  - split.
    + destruct Hundo as (op & Hop & Hu); [simpl; lia|].
      simpl in Hop. injection Hop as <-. exact Hu.
    + destruct Hredo as (op & Hop & Hr); [unfold JsArray.len; simpl; lia|].
      simpl in Hop. injection Hop as <-. exact Hr.
Defined.

(** C5. [getFullState] returns the operations at positions 0 to
    [currentIndex] inclusive together with [currentIndex], and leaves the
    history as it was; with index -1 the operations returned are empty. *)
Theorem getFullState_active_prefix (this : DrawingState.t) :
  DrawingState.index_in_bounds this →
  DrawingState.getFullState this =
    ({| FullState.operations :=
          take (Z.to_nat (DrawingState.currentIndex this + 1)) (DrawingState.operations this);
        FullState.currentIndex := DrawingState.currentIndex this |},
     this)
  ∧ (∀ i : nat,
       FullState.operations (evalState DrawingState.getFullState this) !! i =
         if decide (Z.of_nat i ≤ DrawingState.currentIndex this)
         then DrawingState.operations this !! i else None)
  ∧ (DrawingState.currentIndex this = -1 →
       FullState.operations (evalState DrawingState.getFullState this) = []).
Proof.
  intros Hb. unfold DrawingState.index_in_bounds in Hb.
  assert (Hfs : DrawingState.getFullState this =
    ({| FullState.operations :=
          take (Z.to_nat (DrawingState.currentIndex this + 1)) (DrawingState.operations this);
        FullState.currentIndex := DrawingState.currentIndex this |},
     this)).
  { rewrite getFullState_unfold. by rewrite slice_prefix by lia. }
  split; [exact Hfs|]. unfold evalState. rewrite Hfs. cbn. split.
  - intros i. case_decide.
    + apply lookup_take_lt. lia.
    + apply lookup_take_ge. lia.
  - by intros ->.
Qed.

(** The snapshot of the sample history with index 0 is its first operation. *)
Lemma getFullState_active_prefix_witness :
  DrawingState.getFullState history_undone_twice =
    ({| FullState.operations := [ stored "s1" 0 100 ]; FullState.currentIndex := 0 |},
     history_undone_twice).
Proof.
  destruct (getFullState_active_prefix history_undone_twice) as [Hfs _].
  - unfold DrawingState.index_in_bounds, JsArray.len. simpl. lia.
  - exact Hfs.
Defined.

(** Every stored operation keeps its position as id through every call. *)
Lemma call_ids_are_positions (c : DrawingState.Call) (this : DrawingState.t) :
  ids_are_positions this →
  ids_are_positions (execState (DrawingState.call c) this).
Proof.
  intros Hids. destruct c as [operation now| | | |].
  - unfold execState, DrawingState.call, bind.
    rewrite addOperation_unfold. cbn zeta. cbn [snd].
    set (kept := if _ <? _ then _ else _).
    assert (Hkept : ∀ i op, kept !! i = Some op → Operation.id op = Z.of_nat i).
    { intros i op. subst kept. destruct (_ <? _); [|by apply Hids].
      unfold JsArray.splice. intros [Hop _]%lookup_take_Some. by apply Hids. }
    intros i op. cbn. unfold JsArray.push.
    intros [Hop|[Hi Hop]]%lookup_app_Some; [by apply Hkept|].
    apply list_lookup_singleton_Some in Hop as [Hi0 <-]. cbn.
    unfold JsArray.len. lia.
  - unfold execState, DrawingState.call, bind. rewrite undo_unfold.
    by destruct (_ <? _).
  - unfold execState, DrawingState.call, bind. rewrite redo_unfold.
    by destruct (_ >=? _).
  - unfold execState, DrawingState.call, bind. by rewrite getFullState_unfold.
  - intros i op. unfold_history. cbn. by rewrite lookup_nil.
Qed.

(** X7. In every history reached from the empty one by any sequence of
    calls, each stored operation carries its position as id: the ids of the
    operations stored at one time are 0, 1, 2, ... in order, with no gap
    and no repetition. *)
Lemma reachable_ids_are_positions (roomId : string) (cs : list DrawingState.Call) :
  ids_are_positions (DrawingState.calls cs (DrawingState.new roomId)).
Proof.
  unfold DrawingState.calls.
  induction cs as [|c cs IH] using rev_ind.
  - intros i op. cbn. by rewrite lookup_nil.
  - rewrite foldl_app. cbn. by apply call_ids_are_positions.
Qed.

(** C6. The ids that [addOperation] returns are not strictly increasing
    and not distinct over the life of a history: add, add, undo, add
    returns 0, 1 and 1 again. *)
Theorem addOperation_id_reused (roomId : string) (a b c : Stroke.t) (ta tb tc : Z) :
  DrawingState.ids_returned
    [DrawingState.CallAdd a ta; DrawingState.CallAdd b tb;
     DrawingState.CallUndo; DrawingState.CallAdd c tc]
    (DrawingState.new roomId) = [0; 1; 1]
  ∧ ¬ NoDup (DrawingState.ids_returned
    [DrawingState.CallAdd a ta; DrawingState.CallAdd b tb;
     DrawingState.CallUndo; DrawingState.CallAdd c tc]
    (DrawingState.new roomId)).
Proof.
  assert (Hids : DrawingState.ids_returned
    [DrawingState.CallAdd a ta; DrawingState.CallAdd b tb;
     DrawingState.CallUndo; DrawingState.CallAdd c tc]
    (DrawingState.new roomId) = [0; 1; 1]) by reflexivity.
  split; [exact Hids|]. rewrite Hids.
  intros Hnd. apply NoDup_cons in Hnd as [_ Hnd].
  apply NoDup_cons in Hnd as [Hin _]. apply Hin. by left.
Qed.

(** ** The room registry *)

Ltac unfold_registry :=
  unfold RoomManager.getDrawingState, RoomManager.addUserToRoom,
    RoomManager.removeUserFromRoom, RoomManager.updateUserCursor,
    RoomManager.getUser, RoomManager.getRoomUsers, RoomManager.cleanupRoom,
    RoomManager.getRoom, Host.on_this, Host.Date_now, Host.setTimeout,
    with_room, fresh_room, execState, evalState, bind, when, get, modify, ret in *.

Lemma getRoom_present (h : Host.t RoomManager.t) (roomId : string) (room : Room.t) :
  RoomManager.rooms (Host.this h) !! roomId = Some room →
  RoomManager.getRoom roomId h = (room, h).
Proof. destruct h as [m clk tms]. unfold_registry. cbn. by intros ->. Qed.

Lemma getRoom_absent (h : Host.t RoomManager.t) (roomId : string) :
  RoomManager.rooms (Host.this h) !! roomId = None →
  RoomManager.getRoom roomId h =
    (fresh_room roomId (Host.clock h),
     with_room roomId (fresh_room roomId (Host.clock h)) h).
Proof. destruct h as [m clk tms]. unfold_registry. cbn. by intros ->. Qed.

(** [addUserToRoom] in one step, from the room [getRoom] hands it. *)
Lemma addUserToRoom_unfold (h : Host.t RoomManager.t) (roomId socketId : string)
    (username : option string) :
  RoomManager.addUserToRoom roomId socketId username h =
    let room := default (fresh_room roomId (Host.clock h))
                        (RoomManager.rooms (Host.this h) !! roomId) in
    let n := JsMap.size (Room.users room) in
    let palette := RoomManager.userColors (Host.this h) in
    let user :=
      {| User.id := socketId;
         User.username := RoomManager.username_or username (n + 1);
         User.color := JsArray.at_index (n `mod` JsArray.len palette) palette;
         User.cursor := {| pt_x := 0; pt_y := 0 |};
         User.joinedAt := Host.clock h |} in
    (user, with_room roomId (Room.set_users (JsMap.set socketId user) room) h).
Proof.
  destruct h as [[m palette] clk tms].
  unfold RoomManager.addUserToRoom, bind at 1.
  destruct (m !! roomId) as [room|] eqn:Hroom.
  - rewrite (getRoom_present _ _ room) by done. cbn. rewrite Hroom.
    by unfold_registry.
  - rewrite getRoom_absent by done. cbn. rewrite Hroom.
    unfold_registry. cbn. unfold RoomManager.set_rooms. cbn.
    by rewrite insert_insert_eq.
Qed.

Lemma removeUserFromRoom_unfold (h : Host.t RoomManager.t) (roomId socketId : string) :
  RoomManager.removeUserFromRoom roomId socketId h =
    match RoomManager.rooms (Host.this h) !! roomId with
    | None => (tt, h)
    | Some room =>
        let room' := Room.set_users (JsMap.delete socketId) room in
        let h' := with_room roomId room' h in
        (tt,
         if JsMap.size (Room.users room') =? 0
         then {| Host.this := Host.this h';
                 Host.clock := Host.clock h';
                 Host.timers := Host.timers h' ++
                   [ {| fireAt := Host.clock h' + grace;
                        callback := CleanupRoom roomId |} ] |}
         else h')
    end.
Proof.
  destruct h as [m clk tms]. unfold_registry. cbn.
  destruct (RoomManager.rooms m !! roomId) as [room|]; [|done].
  by destruct (_ =? 0).
Qed.

(** The check a clean-up timer runs: the room goes only if the registry
    holds it with nobody in it at that moment. *)
Lemma cleanupRoom_unfold (h : Host.t RoomManager.t) (roomId : string) :
  RoomManager.cleanupRoom roomId h =
    match RoomManager.rooms (Host.this h) !! roomId with
    | Some currentRoom =>
        if JsMap.size (Room.users currentRoom) =? 0
        then (tt, {| Host.this := RoomManager.set_rooms (delete roomId) (Host.this h);
                     Host.clock := Host.clock h;
                     Host.timers := Host.timers h |})
        else (tt, h)
    | None => (tt, h)
    end.
Proof.
  destruct h as [m clk tms]. unfold_registry. cbn.
  destruct (RoomManager.rooms m !! roomId) as [room|]; [|done].
  by destruct (_ =? 0).
Qed.

(** A room that is left and joined again with no clean-up in between keeps
    its history. *)
Lemma rejoin_keeps_history (h : Host.t RoomManager.t) (roomId leaving joining : string)
    (username : option string) (room : Room.t) :
  RoomManager.rooms (Host.this h) !! roomId = Some room →
  let h1 := execState (RoomManager.removeUserFromRoom roomId leaving) h in
  let h2 := execState (RoomManager.addUserToRoom roomId joining username) h1 in
  RoomManager.history roomId h2 = Some (Room.drawingState room).
Proof.
  intros Hroom h1 h2. subst h1 h2. unfold execState.
  rewrite removeUserFromRoom_unfold, Hroom. cbn zeta. cbn [snd].
  rewrite addUserToRoom_unfold. cbn zeta. cbn [snd].
  unfold RoomManager.history, with_room, RoomManager.set_rooms.
  destruct (_ =? 0); cbn; rewrite !lookup_insert_eq; by cbn.
Qed.

(** C7, as stated, fails: on an empty registry [removeUserFromRoom],
    [getRoomUsers] and [getUser] for an unknown room id return without
    making the room. *)
Lemma unknown_room_not_fabricated :
  let h := Host.start RoomManager.new in
  RoomManager.rooms (Host.this h) !! "ghost" = None
  ∧ RoomManager.rooms
      (Host.this (execState (RoomManager.removeUserFromRoom "ghost" "s1") h)) !! "ghost" = None
  ∧ RoomManager.rooms
      (Host.this (execState (RoomManager.getRoomUsers "ghost") h)) !! "ghost" = None
  ∧ RoomManager.rooms
      (Host.this (execState (RoomManager.getUser "ghost" "s1") h)) !! "ghost" = None.
Proof. cbn zeta. repeat split; by vm_compute. Qed.

(** C7, amended. For a room id the registry does not hold, [getRoom],
    [getDrawingState] and [addUserToRoom] make the room, with an empty
    history and a roster that is empty or holds just the new user;
    [removeUserFromRoom], [getUser], [getRoomUsers] and [updateUserCursor]
    leave the registry as it is and return nothing, no user, or the empty
    list. None of them fails. *)
Theorem unknown_room_lookups (h : Host.t RoomManager.t) (roomId socketId : string)
    (username : option string) (cursor : Point) :
  RoomManager.rooms (Host.this h) !! roomId = None →
  let fresh := fresh_room roomId (Host.clock h) in
  RoomManager.getRoom roomId h = (fresh, with_room roomId fresh h)
  ∧ RoomManager.getDrawingState roomId h =
      (DrawingState.new roomId, with_room roomId fresh h)
  ∧ (∃ user : User.t,
       RoomManager.addUserToRoom roomId socketId username h =
         (user, with_room roomId (Room.set_users (λ _, [(socketId, user)]) fresh) h))
  ∧ RoomManager.removeUserFromRoom roomId socketId h = (tt, h)
  ∧ RoomManager.getUser roomId socketId h = (None, h)
  ∧ RoomManager.getRoomUsers roomId h = ([], h)
  ∧ RoomManager.updateUserCursor roomId socketId cursor h = (tt, h).
Proof.
  intros Hnone fresh.
  assert (Hget : RoomManager.getRoom roomId h = (fresh, with_room roomId fresh h))
    by by apply getRoom_absent.
  assert (Huser : RoomManager.getUser roomId socketId h = (None, h)).
  { destruct h as [m clk tms]. unfold_registry. cbn in *. by rewrite Hnone. }
  repeat split.
  - exact Hget.
  - unfold RoomManager.getDrawingState, bind. by rewrite Hget.
  - eexists. rewrite addUserToRoom_unfold, Hnone. reflexivity.
  - by rewrite removeUserFromRoom_unfold, Hnone.
  - exact Huser.
  - destruct h as [m clk tms]. unfold_registry. cbn in *. by rewrite Hnone.
  - unfold RoomManager.updateUserCursor, bind. by rewrite Huser.
Qed.

(** On a new registry, [getRoom] makes the room and [removeUserFromRoom]
    changes nothing. *)
Lemma unknown_room_lookups_witness :
  is_Some (RoomManager.rooms
    (Host.this (execState (RoomManager.getRoom "ghost") (Host.start RoomManager.new)))
    !! "ghost")
  ∧ RoomManager.removeUserFromRoom "ghost" "s1" (Host.start RoomManager.new)
    = (tt, Host.start RoomManager.new).
Proof.
  destruct (unknown_room_lookups (Host.start RoomManager.new) "ghost" "s1" None
              {| pt_x := 0; pt_y := 0 |}) as (Hget & _ & _ & Hrm & _).
  - reflexivity.
  - split; [|exact Hrm]. unfold execState. rewrite Hget. vm_compute. by eexists.
Defined.

(** C8. A clean-up timer left over from an earlier empty spell deletes a
    room that has been empty for less than the grace period, so a session
    that joins again within the grace period of the last departure finds a
    fresh, empty history. *)
Theorem stale_cleanup_timer_drops_history :
  let before :=
    [ RoomManager.JoinRoom "r1" "s1" None;
      RoomManager.Disconnect "r1" "s1";
      RoomManager.TimePasses 60000;
      RoomManager.JoinRoom "r1" "s1" None;
      RoomManager.StrokeComplete "r1" (stroke_by "s1");
      RoomManager.TimePasses 240000 ] in
  let h := RoomManager.run before (Host.start RoomManager.new) in
  let h' :=
    RoomManager.run
      [ RoomManager.Disconnect "r1" "s1";
        RoomManager.TimePasses 360000;
        RoomManager.JoinRoom "r1" "s2" None ] h in
  JsMap.values <$> RoomManager.roster "r1" h =
    Some [ {| User.id := "s1"; User.username := "User1"; User.color := Some "#FF6B6B"%string;
              User.cursor := {| pt_x := 0; pt_y := 0 |}; User.joinedAt := 60000 |} ]
  ∧ RoomManager.history "r1" h =
      Some {| DrawingState.roomId := "r1";
              DrawingState.operations := [ stored "s1" 0 60000 ];
              DrawingState.currentIndex := 0 |}
  ∧ Host.clock h = 240000
  ∧ Host.clock h' < Host.clock h + grace
  ∧ RoomManager.history "r1" h' = Some (DrawingState.new "r1").
Proof. cbn zeta. repeat split; by vm_compute. Qed.

(** C9. The user [addUserToRoom] returns has the palette colour at index
    (roster size at the call) mod (palette size) and, when no name is
    passed, the name "User" followed by the roster size plus one. *)
Theorem addUserToRoom_color_and_name (h : Host.t RoomManager.t)
    (roomId socketId : string) (username : option string) :
  RoomManager.userColors (Host.this h) = RoomManager.userColors RoomManager.new →
  let palette := RoomManager.userColors RoomManager.new in
  let n := roster_size roomId h in
  let user := evalState (RoomManager.addUserToRoom roomId socketId username) h in
  User.color user = palette !! Z.to_nat (n `mod` JsArray.len palette)
  ∧ is_Some (User.color user)
  ∧ (username = None → User.username user = ("User" +:+ pretty (n + 1))%string).
Proof.
  intros Hpalette palette n user. subst user. unfold evalState.
  rewrite addUserToRoom_unfold. cbn zeta. cbn [fst User.color User.username].
  rewrite Hpalette. fold palette.
  assert (Hn : JsMap.size (Room.users (default (fresh_room roomId (Host.clock h))
                 (RoomManager.rooms (Host.this h) !! roomId))) = n).
  { subst n. unfold roster_size. by destruct (_ !! roomId). }
  rewrite Hn.
  assert (Hlen : JsArray.len palette = 10) by reflexivity.
  assert (Hidx : 0 ≤ n `mod` JsArray.len palette < JsArray.len palette).
  { apply Z.mod_pos_bound. rewrite Hlen. lia. }
  split; [apply at_index_lookup, Hidx|].
  split; [apply at_index_is_Some, Hidx|].
  by intros ->.
Qed.

(** The first user of a new room gets the first colour and the name User1. *)
Lemma addUserToRoom_color_and_name_witness :
  let user := evalState (RoomManager.addUserToRoom "r1" "s1" None)
                        (Host.start RoomManager.new) in
  User.color user = Some "#FF6B6B"%string ∧ User.username user = "User1"%string.
Proof.
  destruct (addUserToRoom_color_and_name (Host.start RoomManager.new) "r1" "s1" None)
    as (Hcolor & _ & Hname).
  - reflexivity.
  - cbn zeta. split.
    + rewrite Hcolor. reflexivity.
    + rewrite Hname by reflexivity. reflexivity.
Defined.

(** C10. Two sessions that are in a room together can have the same
    colour: after A joins, B joins, A leaves and C joins, the roster is B
    and C, both with the second palette colour. *)
Theorem concurrent_members_share_color :
  let calls :=
    (_ <- RoomManager.addUserToRoom "r1" "A" None ;;
     _ <- RoomManager.addUserToRoom "r1" "B" None ;;
     RoomManager.removeUserFromRoom "r1" "A" ;;;
     _ <- RoomManager.addUserToRoom "r1" "C" None ;;
     RoomManager.getRoomUsers "r1")%state in
  ∃ b c : User.t,
    evalState calls (Host.start RoomManager.new) = [b; c]
    ∧ User.id b = "B"%string ∧ User.id c = "C"%string
    ∧ User.id b ≠ User.id c
    ∧ User.color b = Some "#4ECDC4"%string
    ∧ User.color c = User.color b.
Proof.
  cbn zeta. eexists _, _. split; [by vm_compute|].
  repeat split. by cbn.
Qed.

(** ** The operation history: how the calls compose *)

(** Within the index domain the active operations are a plain prefix. *)
Lemma getActiveOperations_take (this : DrawingState.t) :
  DrawingState.index_in_bounds this →
  evalState DrawingState.getActiveOperations this =
    take (Z.to_nat (DrawingState.currentIndex this + 1)) (DrawingState.operations this).
Proof.
  intros Hb. unfold DrawingState.index_in_bounds in Hb.
  unfold_history. cbn. by rewrite slice_prefix by lia.
Qed.

(** [addOperation] on any history within the index domain, cut or not. *)
Lemma addOperation_normal_form (operation : Stroke.t) (now : Z) (this : DrawingState.t) :
  DrawingState.index_in_bounds this →
  DrawingState.addOperation operation now this =
    (DrawingState.currentIndex this + 1,
     {| DrawingState.roomId := DrawingState.roomId this;
        DrawingState.operations :=
          take (Z.to_nat (DrawingState.currentIndex this + 1)) (DrawingState.operations this)
          ++ [ {| Operation.operation := operation;
                  Operation.id := DrawingState.currentIndex this + 1;
                  Operation.timestamp := now |} ];
        DrawingState.currentIndex := DrawingState.currentIndex this + 1 |}).
Proof.
  intros Hb. unfold DrawingState.index_in_bounds in Hb.
  rewrite addOperation_unfold. cbn zeta.
  destruct (Z.ltb_spec (DrawingState.currentIndex this)
              (JsArray.len (DrawingState.operations this) - 1)).
  - rewrite splice_prefix by lia. by rewrite len_take by lia.
  - assert (Hlen : JsArray.len (DrawingState.operations this)
                   = DrawingState.currentIndex this + 1) by lia.
    rewrite Hlen. rewrite take_ge; [done|]. unfold JsArray.len in Hlen. lia.
Qed.

(** X1. Within the index domain, after [addOperation] the active
    operations are the ones active before followed by the new operation,
    every stored operation is active, and [redo] has nothing to return. *)
Theorem addOperation_extends_active (operation : Stroke.t) (now : Z)
    (this : DrawingState.t) :
  DrawingState.index_in_bounds this →
  let this' := execState (DrawingState.addOperation operation now) this in
  let added := {| Operation.operation := operation;
                  Operation.id := evalState (DrawingState.addOperation operation now) this;
                  Operation.timestamp := now |} in
  evalState DrawingState.getActiveOperations this' =
    evalState DrawingState.getActiveOperations this ++ [added]
  ∧ DrawingState.operations this' = evalState DrawingState.getActiveOperations this'
  ∧ DrawingState.redo this' = (None, this').
Proof.
  intros Hb this' added.
  assert (Hb' : DrawingState.index_in_bounds this') by by apply addOperation_in_bounds.
  rewrite (getActiveOperations_take _ Hb'), (getActiveOperations_take _ Hb).
  subst this' added. unfold execState, evalState in *.
  rewrite addOperation_normal_form in * by done.
  cbn [fst snd DrawingState.operations DrawingState.currentIndex].
  unfold DrawingState.index_in_bounds in Hb. clear Hb'.
  set (kept := take (Z.to_nat (DrawingState.currentIndex this + 1))
                    (DrawingState.operations this)).
  assert (Hkept : length kept = Z.to_nat (DrawingState.currentIndex this + 1)).
  { subst kept. apply length_take_le. unfold JsArray.len in Hb. lia. }
  assert (Hall : take (Z.to_nat (DrawingState.currentIndex this + 1 + 1))
                      (kept ++ [ {| Operation.operation := operation;
                                    Operation.id := DrawingState.currentIndex this + 1;
                                    Operation.timestamp := now |} ])
                 = kept ++ [ {| Operation.operation := operation;
                                Operation.id := DrawingState.currentIndex this + 1;
                                Operation.timestamp := now |} ]).
  { apply take_ge. rewrite length_app, Hkept. cbn. lia. }
  rewrite Hall. split; [done|]. split; [done|].
  rewrite redo_unfold. cbn.
  destruct (Z.geb_spec (DrawingState.currentIndex this + 1)
    (JsArray.len (kept ++ [ {| Operation.operation := operation;
                               Operation.id := DrawingState.currentIndex this + 1;
                               Operation.timestamp := now |} ]) - 1)); [done|].
  unfold JsArray.len in *. rewrite length_app, Hkept in *. cbn in *. lia.
Qed.

(** Adding to the sample history with two operations undone. *)
Lemma addOperation_extends_active_witness :
  evalState DrawingState.getActiveOperations
    (execState (DrawingState.addOperation (stroke_by "s2") 400) history_undone_twice)
  = [ stored "s1" 0 100; stored "s2" 1 400 ].
Proof.
  destruct (addOperation_extends_active (stroke_by "s2") 400 history_undone_twice)
    as [Hactive _].
  - unfold DrawingState.index_in_bounds, JsArray.len. simpl. lia.
  - rewrite Hactive. reflexivity.
Defined.

(** X2. Within the index domain, [undo] straight after [addOperation]
    returns the operation just stored, puts the index back where it was
    and leaves the active operations as they were before the addition. *)
Theorem addOperation_then_undo (operation : Stroke.t) (now : Z) (this : DrawingState.t) :
  DrawingState.index_in_bounds this →
  let this' := execState (DrawingState.addOperation operation now) this in
  let this'' := execState DrawingState.undo this' in
  evalState DrawingState.undo this' =
    Some {| HistoryResult.type := type_undo;
            HistoryResult.operation :=
              Some {| Operation.operation := operation;
                      Operation.id := DrawingState.currentIndex this + 1;
                      Operation.timestamp := now |};
            HistoryResult.newIndex := DrawingState.currentIndex this |}
  ∧ DrawingState.currentIndex this'' = DrawingState.currentIndex this
  ∧ evalState DrawingState.getActiveOperations this'' =
      evalState DrawingState.getActiveOperations this.
Proof.
  intros Hb this' this''.
  assert (Hb' : DrawingState.index_in_bounds this') by by apply addOperation_in_bounds.
  assert (Hb'' : DrawingState.index_in_bounds this'').
  { apply (call_in_bounds DrawingState.CallUndo) in Hb'.
    unfold this'', execState, DrawingState.call, bind in *.
    by destruct (DrawingState.undo this'). }
  rewrite (getActiveOperations_take _ Hb''), (getActiveOperations_take _ Hb).
  subst this'' this'. unfold execState, evalState.
  rewrite addOperation_normal_form by done. cbn [snd].
  unfold DrawingState.index_in_bounds in Hb.
  set (kept := take _ (DrawingState.operations this)).
  assert (Hkept : length kept = Z.to_nat (DrawingState.currentIndex this + 1)).
  { subst kept. apply length_take_le. unfold JsArray.len in Hb. lia. }
  rewrite undo_unfold. cbn.
  destruct (Z.ltb_spec (DrawingState.currentIndex this + 1) 0); [lia|]. cbn.
  rewrite at_index_lookup by lia.
  rewrite <- Hkept, list_lookup_middle by done.
  replace (Z.pred (DrawingState.currentIndex this + 1))
    with (DrawingState.currentIndex this) by lia.
  split; [done|]. split; [done|].
  rewrite take_app_le by lia. subst kept. by rewrite take_idemp.
Qed.

(** Add then undo on the sample history with two operations undone. *)
Lemma addOperation_then_undo_witness :
  evalState DrawingState.getActiveOperations
    (execState DrawingState.undo
       (execState (DrawingState.addOperation (stroke_by "s2") 400) history_undone_twice))
  = [ stored "s1" 0 100 ].
Proof.
  destruct (addOperation_then_undo (stroke_by "s2") 400 history_undone_twice)
    as (_ & _ & Hactive).
  - unfold DrawingState.index_in_bounds, JsArray.len. simpl. lia.
  - rewrite Hactive. reflexivity.
Defined.

(** X3. Where redo succeeds, redo followed at once by undo hands back the
    same operation twice, the one just above the original index, and
    leaves the history as it was. *)
Theorem redo_undo_round_trip (this : DrawingState.t) :
  DrawingState.index_in_bounds this →
  DrawingState.currentIndex this < JsArray.len (DrawingState.operations this) - 1 →
  ∃ (op : Operation.t) (this1 : DrawingState.t),
    DrawingState.operations this !! Z.to_nat (DrawingState.currentIndex this + 1) = Some op
    ∧ DrawingState.redo this =
        (Some {| HistoryResult.type := type_redo;
                 HistoryResult.operation := Some op;
                 HistoryResult.newIndex := DrawingState.currentIndex this + 1 |},
         this1)
    ∧ DrawingState.undo this1 =
        (Some {| HistoryResult.type := type_undo;
                 HistoryResult.operation := Some op;
                 HistoryResult.newIndex := DrawingState.currentIndex this |},
         this).
Proof.
  intros Hb Hci. unfold DrawingState.index_in_bounds in Hb.
  destruct (at_index_is_Some (DrawingState.operations this)
              (DrawingState.currentIndex this + 1)) as [op Hop]; [lia|].
  exists op, (DrawingState.set_currentIndex Z.succ this).
  split; [by rewrite <- at_index_lookup by lia|]. split.
  - rewrite redo_unfold.
    destruct (Z.geb_spec (DrawingState.currentIndex this)
                (JsArray.len (DrawingState.operations this) - 1)); [lia|].
    unfold Z.succ. by rewrite Hop.
  - rewrite undo_unfold. cbn.
    destruct (Z.ltb_spec (Z.succ (DrawingState.currentIndex this)) 0); [lia|].
    unfold Z.succ at 1. rewrite Hop, Z.pred_succ.
    destruct this as [r ops ci]. unfold DrawingState.set_currentIndex. cbn.
    by rewrite Z.pred_succ.
Qed.

(** The round trip on the sample history with two operations undone. *)
Lemma redo_undo_round_trip_witness :
  ∃ this1 : DrawingState.t,
    DrawingState.redo history_undone_twice =
      (Some {| HistoryResult.type := type_redo;
               HistoryResult.operation := Some (stored "s2" 1 200);
               HistoryResult.newIndex := 1 |},
       this1)
    ∧ execState DrawingState.undo this1 = history_undone_twice.
Proof.
  destruct (redo_undo_round_trip history_undone_twice) as (op & this1 & Hop & Hr & Hu).
  - unfold DrawingState.index_in_bounds, JsArray.len. simpl. lia.
  - unfold JsArray.len. simpl. lia.
  - exists this1. simpl in Hop. injection Hop as <-. split; [exact Hr|].
    unfold execState. rewrite Hu. reflexivity.
Defined.

(** X4. Whatever the history held, after [clear] it is the empty history
    of the same room: [undo] and [redo] return nothing on it, so a clear
    cannot be undone, and the next operation added gets id 0. *)
Theorem clear_is_final (this : DrawingState.t) (operation : Stroke.t) (now : Z) :
  let this' := execState DrawingState.clear this in
  this' = DrawingState.new (DrawingState.roomId this)
  ∧ DrawingState.undo this' = (None, this')
  ∧ DrawingState.redo this' = (None, this')
  ∧ evalState DrawingState.getActiveOperations this' = []
  ∧ evalState (DrawingState.addOperation operation now) this' = 0.
Proof.
  cbn zeta. repeat split.
Qed.

(** X5. Within the index domain, a successful [undo] takes exactly the
    last active operation off the snapshot and returns it, and a
    successful [redo] puts exactly the operation it returns at the end of
    the snapshot. *)
Theorem snapshot_follows_undo_redo (this : DrawingState.t) :
  DrawingState.index_in_bounds this →
  (0 ≤ DrawingState.currentIndex this →
     ∃ op : Operation.t,
       HistoryResult.operation <$> evalState DrawingState.undo this = Some (Some op)
       ∧ evalState DrawingState.getActiveOperations this =
           evalState DrawingState.getActiveOperations (execState DrawingState.undo this)
           ++ [op])
  ∧ (DrawingState.currentIndex this < JsArray.len (DrawingState.operations this) - 1 →
     ∃ op : Operation.t,
       HistoryResult.operation <$> evalState DrawingState.redo this = Some (Some op)
       ∧ evalState DrawingState.getActiveOperations (execState DrawingState.redo this) =
           evalState DrawingState.getActiveOperations this ++ [op]).
Proof.
  intros Hb. pose proof Hb as Hb0. unfold DrawingState.index_in_bounds in Hb. split.
  - intros Hci.
    destruct (at_index_is_Some (DrawingState.operations this)
                (DrawingState.currentIndex this)) as [op Hop]; [lia|].
    exists op. unfold evalState at 1, execState. rewrite undo_unfold.
    destruct (Z.ltb_spec (DrawingState.currentIndex this) 0); [lia|].
    cbn [fst snd]. rewrite Hop. split; [done|].
    rewrite getActiveOperations_take by done.
    rewrite getActiveOperations_take
      by (unfold DrawingState.index_in_bounds; cbn; lia).
    cbn [DrawingState.set_currentIndex DrawingState.operations DrawingState.currentIndex].
    rewrite at_index_lookup in Hop by lia.
    replace (Z.to_nat (DrawingState.currentIndex this + 1))
      with (S (Z.to_nat (DrawingState.currentIndex this))) by lia.
    replace (Z.to_nat (Z.pred (DrawingState.currentIndex this) + 1))
      with (Z.to_nat (DrawingState.currentIndex this)) by lia.
    by apply take_S_r.
  - intros Hci.
    destruct (at_index_is_Some (DrawingState.operations this)
                (DrawingState.currentIndex this + 1)) as [op Hop]; [lia|].
    exists op. unfold evalState at 1, execState. rewrite redo_unfold.
    destruct (Z.geb_spec (DrawingState.currentIndex this)
                (JsArray.len (DrawingState.operations this) - 1)); [lia|].
    cbn [fst snd]. unfold Z.succ at 1. rewrite Hop. split; [done|].
    rewrite (getActiveOperations_take this) by done.
    rewrite getActiveOperations_take
      by (unfold DrawingState.index_in_bounds; cbn; lia).
    cbn [DrawingState.set_currentIndex DrawingState.operations DrawingState.currentIndex].
    rewrite at_index_lookup in Hop by lia.
    replace (Z.to_nat (Z.succ (DrawingState.currentIndex this) + 1))
      with (S (Z.to_nat (DrawingState.currentIndex this + 1))) by lia.
    by apply take_S_r.
Qed.

(** Undo on the sample history with all three operations active. *)
Lemma snapshot_follows_undo_redo_witness :
  ∃ op : Operation.t,
    evalState DrawingState.getActiveOperations history_all_active =
      evalState DrawingState.getActiveOperations
        (execState DrawingState.undo history_all_active) ++ [op].
Proof.
  destruct (snapshot_follows_undo_redo history_all_active) as [Hundo _].
  - unfold DrawingState.index_in_bounds, JsArray.len. simpl. lia.
  - destruct Hundo as (op & _ & Hactive); [simpl; lia|].
    exists op. exact Hactive.
Defined.

(** X6. Within the index domain no call other than [clear] changes or
    removes an active operation: what is stored at a position up to the
    index is still stored there after [addOperation], [undo], [redo] and
    [getFullState]. *)
Theorem active_operations_are_kept (c : DrawingState.Call) (this : DrawingState.t)
    (i : nat) :
  DrawingState.index_in_bounds this →
  c ≠ DrawingState.CallClear →
  Z.of_nat i ≤ DrawingState.currentIndex this →
  DrawingState.operations (execState (DrawingState.call c) this) !! i =
    DrawingState.operations this !! i.
Proof.
  intros Hb Hc Hi. pose proof Hb as Hb0. unfold DrawingState.index_in_bounds in Hb.
  destruct c as [operation now| | | |]; [| | | |done].
  - unfold execState, DrawingState.call, bind.
    rewrite addOperation_normal_form by done. cbn.
    rewrite lookup_app_l.
    + apply lookup_take_lt. lia.
    + rewrite length_take_le; unfold JsArray.len in Hb; lia.
  - unfold execState, DrawingState.call, bind. rewrite undo_unfold.
    by destruct (_ <? _).
  - unfold execState, DrawingState.call, bind. rewrite redo_unfold.
    by destruct (_ >=? _).
  - unfold execState, DrawingState.call, bind. by rewrite getFullState_unfold.
Qed.

(** The first sample operation survives an addition that cuts two others. *)
Lemma active_operations_are_kept_witness :
  DrawingState.operations
    (execState (DrawingState.call (DrawingState.CallAdd (stroke_by "s2") 400))
               history_undone_twice) !! 0%nat
  = Some (stored "s1" 0 100).
Proof.
  rewrite (active_operations_are_kept
             (DrawingState.CallAdd (stroke_by "s2") 400) history_undone_twice 0).
  - reflexivity.
  - unfold DrawingState.index_in_bounds, JsArray.len. simpl. lia.
  - discriminate.
  - simpl. lia.
Defined.

(** ** The roster map *)

Section map_facts.
Context {V : Type}.
Implicit Types (m : list (string * V)) (k : string) (v : V).

Lemma JsMap_get_None m k : JsMap.get k m = None ↔ k ∉ m.*1.
Proof.
  induction m as [|[k' v'] m IH]; cbn.
  - split; [intros _; apply not_elem_of_nil|done].
  - rewrite not_elem_of_cons. case_decide as Hk.
    + split; [done|]. by intros [Hne _].
    + rewrite IH. split; [by intros ?; split|by intros [_ ?]].
Qed.

Lemma JsMap_get_Some m k v : JsMap.get k m = Some v → (k, v) ∈ m.
Proof.
  induction m as [|[k' v'] m IH]; cbn; [done|].
  case_decide as Hk.
  - intros [= <-]. subst k'. by left.
  - intros Hget. right. by apply IH.
Qed.

Lemma JsMap_get_set_eq m k v : JsMap.get k (JsMap.set k v m) = Some v.
Proof.
  induction m as [|[k' v'] m IH]; cbn.
  - by rewrite decide_True.
  - case_decide; cbn; [by rewrite decide_True|by rewrite decide_False].
Qed.

Lemma JsMap_get_set_ne m k k' v : k ≠ k' → JsMap.get k' (JsMap.set k v m) = JsMap.get k' m.
Proof.
  intros Hne. induction m as [|[k0 v0] m IH]; cbn.
  - by rewrite decide_False.
  - case_decide as Hk; cbn.
    + subst k0. by rewrite !decide_False by done.
    + case_decide; [done|apply IH].
Qed.

Lemma JsMap_get_delete_eq m k : JsMap.get k (JsMap.delete k m) = None.
Proof.
  apply JsMap_get_None. unfold JsMap.delete.
  intros ([k' v'] & -> & Hin)%list_elem_of_fmap.
  apply list_elem_of_filter in Hin as [Hne _]. by apply Hne.
Qed.

Lemma JsMap_get_delete_ne m k k' : k ≠ k' → JsMap.get k' (JsMap.delete k m) = JsMap.get k' m.
Proof.
  intros Hne. unfold JsMap.delete. induction m as [|[k0 v0] m IH]; [done|].
  destruct (decide (k0 = k)) as [->|Hk0].
  - rewrite filter_cons_False by (cbn; by intros ?). cbn.
    by rewrite decide_False by done.
  - rewrite filter_cons_True by done. cbn.
    case_decide; [done|apply IH].
Qed.

(** Setting a key the map does not hold puts the entry at the end. *)
Lemma JsMap_set_absent m k v : JsMap.get k m = None → JsMap.set k v m = m ++ [(k, v)].
Proof.
  induction m as [|[k' v'] m IH]; cbn; [done|].
  case_decide; [done|]. intros Hget. by rewrite IH.
Qed.

(** Setting a key the map holds keeps every key in its place. *)
Lemma JsMap_set_present_keys m k v :
  is_Some (JsMap.get k m) → (JsMap.set k v m).*1 = m.*1.
Proof.
  induction m as [|[k' v'] m IH]; cbn.
  - by intros [? ?].
  - case_decide as Hk; cbn; [by subst k'|].
    intros Hget. by rewrite IH.
Qed.

Lemma JsMap_set_keys_NoDup m k v : NoDup m.*1 → NoDup (JsMap.set k v m).*1.
Proof.
  intros Hnd. destruct (JsMap.get k m) as [v0|] eqn:Hget.
  - by rewrite JsMap_set_present_keys by by eexists.
  - rewrite JsMap_set_absent by done. rewrite fmap_app. cbn.
    apply NoDup_app. split; [done|]. split; [|apply NoDup_singleton].
    intros k' Hin ->%list_elem_of_singleton. by apply JsMap_get_None in Hget.
Qed.

Lemma JsMap_delete_keys_NoDup m k : NoDup m.*1 → NoDup (JsMap.delete k m).*1.
Proof.
  unfold JsMap.delete. induction m as [|[k' v'] m IH]; [done|].
  rewrite fmap_cons. intros [Hnotin Hnd]%NoDup_cons. cbn [fst] in Hnotin.
  destruct (decide (k' = k)) as [->|Hk'].
  { rewrite filter_cons_False by (cbn; by intros ?). by apply IH. }
  rewrite filter_cons_True by done. rewrite fmap_cons. cbn [fst].
  apply NoDup_cons. split; [|by apply IH].
  intros ([k0 v0] & Hk0 & Hin)%list_elem_of_fmap. cbn in Hk0. subst k0.
  apply list_elem_of_filter in Hin as [_ Hin].
  apply Hnotin. apply list_elem_of_fmap. by exists (k', v0).
Qed.

Lemma JsMap_set_elem m k v k' v' :
  (k', v') ∈ JsMap.set k v m → (k', v') = (k, v) ∨ (k', v') ∈ m.
Proof.
  induction m as [|[k0 v0] m IH]; cbn.
  - intros ->%list_elem_of_singleton. by left.
  - case_decide.
    + intros [->|Hin]%elem_of_cons; [by left|]. right. by right.
    + intros [->|Hin]%elem_of_cons; [right; by left|].
      destruct (IH Hin) as [?|?]; [by left|]. right. by right.
Qed.

Lemma JsMap_delete_elem m k k' v' : (k', v') ∈ JsMap.delete k m → (k', v') ∈ m.
Proof. unfold JsMap.delete. by intros [_ ?]%list_elem_of_filter. Qed.

Lemma JsMap_size_set_absent m k v :
  JsMap.get k m = None → JsMap.size (JsMap.set k v m) = JsMap.size m + 1.
Proof.
  intros Hget. rewrite JsMap_set_absent by done.
  unfold JsMap.size. rewrite length_app. cbn. lia.
Qed.

Lemma JsMap_size_set_present m k v :
  is_Some (JsMap.get k m) → JsMap.size (JsMap.set k v m) = JsMap.size m.
Proof.
  intros Hget. unfold JsMap.size.
  rewrite <- (length_fmap fst (JsMap.set k v m)), JsMap_set_present_keys by done.
  by rewrite length_fmap.
Qed.
End map_facts.

(** ** The room registry: lookups, rosters and isolation *)

Lemma room_at_with_room_eq (h : Host.t RoomManager.t) (roomId : string) (room : Room.t) :
  room_at roomId (with_room roomId room h) = Some room.
Proof. unfold room_at, with_room. cbn. apply lookup_insert_eq. Qed.

Lemma room_at_with_room_ne (h : Host.t RoomManager.t) (roomId other : string)
    (room : Room.t) :
  roomId ≠ other → room_at other (with_room roomId room h) = room_at other h.
Proof. intros Hne. unfold room_at, with_room. cbn. by apply lookup_insert_ne. Qed.

Lemma getRoom_unfold (h : Host.t RoomManager.t) (roomId : string) :
  RoomManager.getRoom roomId h =
    match room_at roomId h with
    | Some room => (room, h)
    | None => (fresh_room roomId (Host.clock h),
               with_room roomId (fresh_room roomId (Host.clock h)) h)
    end.
Proof.
  unfold room_at. destruct (_ !! roomId) as [room|] eqn:Hroom.
  - by apply getRoom_present.
  - by apply getRoom_absent.
Qed.

Lemma getUser_unfold (h : Host.t RoomManager.t) (roomId socketId : string) :
  RoomManager.getUser roomId socketId h =
    (room_at roomId h ≫= λ room, JsMap.get socketId (Room.users room), h).
Proof.
  destruct h as [m clk tms]. unfold room_at. unfold_registry. cbn.
  by destruct (RoomManager.rooms m !! roomId).
Qed.

Lemma getRoomUsers_unfold (h : Host.t RoomManager.t) (roomId : string) :
  RoomManager.getRoomUsers roomId h =
    (from_option (λ room, JsMap.values (Room.users room)) [] (room_at roomId h), h).
Proof.
  destruct h as [m clk tms]. unfold room_at. unfold_registry. cbn.
  by destruct (RoomManager.rooms m !! roomId).
Qed.

Lemma updateUserCursor_unfold (h : Host.t RoomManager.t) (roomId socketId : string)
    (cursor : Point) :
  RoomManager.updateUserCursor roomId socketId cursor h =
    (tt,
     match room_at roomId h with
     | Some room =>
         match JsMap.get socketId (Room.users room) with
         | Some user =>
             with_room roomId
               (Room.set_users (JsMap.set socketId (User.set_cursor cursor user)) room) h
         | None => h
         end
     | None => h
     end).
Proof.
  unfold RoomManager.updateUserCursor, bind. rewrite getUser_unfold.
  destruct (room_at roomId h) as [room|] eqn:Hroom; cbn; [|done].
  destruct (JsMap.get socketId (Room.users room)) as [user|]; [|done].
  destruct h as [[m palette] clk tms]. unfold room_at in Hroom. cbn in Hroom.
  unfold_registry. cbn. unfold RoomManager.set_rooms. cbn. do 3 f_equal.
  apply map_eq. intros k. rewrite lookup_alter, lookup_insert.
  case_decide; [subst k; by rewrite Hroom|done].
Qed.

(** A method call on the history of a room, in one step. *)
Lemma onDrawingState_unfold {A : Type} (h : Host.t RoomManager.t) (roomId : string)
    (m : State DrawingState.t A) :
  RoomManager.onDrawingState roomId m h =
    let room := default (fresh_room roomId (Host.clock h)) (room_at roomId h) in
    (fst (m (Room.drawingState room)),
     with_room roomId (Room.set_drawingState (snd (m (Room.drawingState room))) room) h).
Proof.
  unfold RoomManager.onDrawingState, RoomManager.getDrawingState, bind.
  rewrite getRoom_unfold.
  destruct (room_at roomId h) as [room|] eqn:Hroom; cbn.
  - destruct (m (Room.drawingState room)) as [a ds'].
    destruct h as [[rs palette] clk tms]. unfold room_at in Hroom. cbn in Hroom.
    unfold_registry. cbn. unfold RoomManager.set_rooms. cbn. do 3 f_equal.
    apply map_eq. intros k. rewrite lookup_alter, lookup_insert.
    case_decide; [subst k; by rewrite Hroom|done].
  - destruct (m (DrawingState.new roomId)) as [a ds'].
    destruct h as [[rs palette] clk tms].
    unfold_registry. cbn. unfold RoomManager.set_rooms. cbn. do 3 f_equal.
    apply alter_insert_eq.
Qed.

(** X8. [getRoom] is idempotent: the room it returns is the one the
    registry then holds under the id, a second call returns the same room
    and changes nothing, and a call for a room already held changes
    nothing either. *)
Theorem getRoom_idempotent (h : Host.t RoomManager.t) (roomId : string) :
  let room := evalState (RoomManager.getRoom roomId) h in
  let h1 := execState (RoomManager.getRoom roomId) h in
  room_at roomId h1 = Some room
  ∧ RoomManager.getRoom roomId h1 = (room, h1)
  ∧ (is_Some (room_at roomId h) → h1 = h ∧ room_at roomId h = Some room).
Proof.
  cbn zeta. unfold evalState, execState. rewrite getRoom_unfold.
  destruct (room_at roomId h) as [room|] eqn:Hroom; cbn [fst snd].
  - split; [done|]. split; [|done]. by rewrite getRoom_unfold, Hroom.
  - split; [apply room_at_with_room_eq|]. split; [|by intros [? ?]].
    by rewrite getRoom_unfold, room_at_with_room_eq.
Qed.

(** A second [getRoom] on a room just made changes nothing. *)
Lemma getRoom_idempotent_witness :
  let h1 := execState (RoomManager.getRoom "r1") (Host.start RoomManager.new) in
  execState (RoomManager.getRoom "r1") h1 = h1.
Proof.
  cbn zeta.
  destruct (getRoom_idempotent
              (execState (RoomManager.getRoom "r1") (Host.start RoomManager.new)) "r1")
    as (_ & _ & Hheld).
  destruct Hheld as [Hsame _]; [|exact Hsame].
  vm_compute. by eexists.
Defined.

Lemma getRoom_other (h : Host.t RoomManager.t) (roomId other : string) :
  roomId ≠ other →
  room_at other (execState (RoomManager.getRoom roomId) h) = room_at other h.
Proof.
  intros Hne. unfold execState. rewrite getRoom_unfold.
  destruct (room_at roomId h); [done|]. by apply room_at_with_room_ne.
Qed.

Lemma addUserToRoom_other (h : Host.t RoomManager.t) (roomId other socketId : string)
    (username : option string) :
  roomId ≠ other →
  room_at other (execState (RoomManager.addUserToRoom roomId socketId username) h)
  = room_at other h.
Proof.
  intros Hne. unfold execState. rewrite addUserToRoom_unfold.
  by apply room_at_with_room_ne.
Qed.

Lemma removeUserFromRoom_other (h : Host.t RoomManager.t) (roomId other socketId : string) :
  roomId ≠ other →
  room_at other (execState (RoomManager.removeUserFromRoom roomId socketId) h)
  = room_at other h.
Proof.
  intros Hne. unfold execState. rewrite removeUserFromRoom_unfold.
  destruct (RoomManager.rooms (Host.this h) !! roomId); [|done]. cbn zeta.
  destruct (_ =? 0); cbn [snd]; [|by apply room_at_with_room_ne].
  unfold room_at, with_room. cbn. by apply lookup_insert_ne.
Qed.

Lemma updateUserCursor_other (h : Host.t RoomManager.t) (roomId other socketId : string)
    (cursor : Point) :
  roomId ≠ other →
  room_at other (execState (RoomManager.updateUserCursor roomId socketId cursor) h)
  = room_at other h.
Proof.
  intros Hne. unfold execState. rewrite updateUserCursor_unfold. cbn [snd].
  destruct (room_at roomId h) as [room|]; [|done].
  destruct (JsMap.get socketId (Room.users room)); [|done].
  by apply room_at_with_room_ne.
Qed.

Lemma onDrawingState_other {A : Type} (h : Host.t RoomManager.t) (roomId other : string)
    (m : State DrawingState.t A) :
  roomId ≠ other →
  room_at other (execState (RoomManager.onDrawingState roomId m) h) = room_at other h.
Proof.
  intros Hne. unfold execState. rewrite onDrawingState_unfold.
  by apply room_at_with_room_ne.
Qed.

(** X9. Rooms are isolated: no registry method called for one room id, no
    call on that room's history and no clean-up check of that room changes
    what the registry holds under any other id. *)
Theorem rooms_are_isolated {A : Type} (h : Host.t RoomManager.t)
    (roomId other socketId : string) (username : option string) (cursor : Point)
    (m : State DrawingState.t A) :
  roomId ≠ other →
  room_at other (execState (RoomManager.getRoom roomId) h) = room_at other h
  ∧ room_at other (execState (RoomManager.addUserToRoom roomId socketId username) h)
    = room_at other h
  ∧ room_at other (execState (RoomManager.removeUserFromRoom roomId socketId) h)
    = room_at other h
  ∧ room_at other (execState (RoomManager.updateUserCursor roomId socketId cursor) h)
    = room_at other h
  ∧ room_at other (execState (RoomManager.getDrawingState roomId) h) = room_at other h
  ∧ room_at other (execState (RoomManager.onDrawingState roomId m) h) = room_at other h
  ∧ room_at other (execState (RoomManager.cleanupRoom roomId) h) = room_at other h.
Proof.
  intros Hne.
  split; [by apply getRoom_other|].
  split; [by apply addUserToRoom_other|].
  split; [by apply removeUserFromRoom_other|].
  split; [by apply updateUserCursor_other|].
  split; [|split; [by apply onDrawingState_other|]].
  - pose proof (getRoom_other h roomId other Hne) as Hget.
    unfold execState, RoomManager.getDrawingState, bind in *.
    by destruct (RoomManager.getRoom roomId h).
  - unfold execState. rewrite cleanupRoom_unfold.
    destruct (RoomManager.rooms (Host.this h) !! roomId); [|done].
    destruct (_ =? 0); [|done].
    unfold room_at. cbn. by apply lookup_delete_ne.
Qed.

(** A stroke added in room alpha leaves a new registry without a room beta. *)
Lemma rooms_are_isolated_witness :
  room_at "beta"
    (execState (RoomManager.onDrawingState "alpha"
                  (DrawingState.addOperation (stroke_by "s1") 5))
               (Host.start RoomManager.new))
  = None.
Proof.
  destruct (rooms_are_isolated (Host.start RoomManager.new) "alpha" "beta" "s1" None
              {| pt_x := 0; pt_y := 0 |} (DrawingState.addOperation (stroke_by "s1") 5))
    as (_ & _ & _ & _ & _ & Hon & _).
  - discriminate.
  - rewrite Hon. reflexivity.
Defined.

(** The user [addUserToRoom] returns is the one the roster then holds for
    the socket. *)
Lemma addUserToRoom_finds_user (h : Host.t RoomManager.t) (roomId socketId : string)
    (username : option string) :
  let user := evalState (RoomManager.addUserToRoom roomId socketId username) h in
  let h' := execState (RoomManager.addUserToRoom roomId socketId username) h in
  RoomManager.getUser roomId socketId h' = (Some user, h')
  ∧ user ∈ evalState (RoomManager.getRoomUsers roomId) h'.
Proof.
  cbn zeta. unfold evalState, execState.
  rewrite addUserToRoom_unfold. cbn zeta. cbn [fst snd].
  set (user := User.Build_t _ _ _ _ _).
  split.
  - rewrite getUser_unfold, room_at_with_room_eq. cbn.
    by rewrite JsMap_get_set_eq.
  - rewrite getRoomUsers_unfold, room_at_with_room_eq. cbn.
    unfold JsMap.values. apply list_elem_of_fmap. exists (socketId, user).
    split; [done|]. apply JsMap_get_Some, JsMap_get_set_eq.
Qed.

(** X10. After [addUserToRoom], [getUser] for the same room and socket
    returns the user the call returned, that user is in the list
    [getRoomUsers] gives, and [getUser] for any other socket of the room
    answers as before. *)
Theorem addUserToRoom_then_getUser (h : Host.t RoomManager.t)
    (roomId socketId : string) (username : option string) :
  let user := evalState (RoomManager.addUserToRoom roomId socketId username) h in
  let h' := execState (RoomManager.addUserToRoom roomId socketId username) h in
  RoomManager.getUser roomId socketId h' = (Some user, h')
  ∧ user ∈ evalState (RoomManager.getRoomUsers roomId) h'
  ∧ (∀ other : string, other ≠ socketId →
       evalState (RoomManager.getUser roomId other) h'
       = evalState (RoomManager.getUser roomId other) h).
Proof.
  cbn zeta. unfold evalState, execState.
  rewrite addUserToRoom_unfold. cbn zeta. cbn [fst snd].
  set (user := User.Build_t _ _ _ _ _).
  split; [|split].
  - rewrite getUser_unfold, room_at_with_room_eq. cbn.
    by rewrite JsMap_get_set_eq.
  - rewrite getRoomUsers_unfold, room_at_with_room_eq. cbn.
    unfold JsMap.values. apply list_elem_of_fmap. exists (socketId, user).
    split; [done|]. apply JsMap_get_Some, JsMap_get_set_eq.
  - intros other Hother. rewrite !getUser_unfold, room_at_with_room_eq. cbn.
    rewrite JsMap_get_set_ne by done. unfold room_at.
    by destruct (_ !! roomId).
Qed.

(** A second user joins: the first is still found. *)
Lemma addUserToRoom_then_getUser_witness :
  let h := execState (RoomManager.addUserToRoom "r1" "s1" None) (Host.start RoomManager.new) in
  User.id <$> evalState (RoomManager.getUser "r1" "s1")
                (execState (RoomManager.addUserToRoom "r1" "s2" None) h)
  = Some "s1"%string.
Proof.
  cbn zeta.
  destruct (addUserToRoom_then_getUser
              (execState (RoomManager.addUserToRoom "r1" "s1" None)
                         (Host.start RoomManager.new)) "r1" "s2" None) as (_ & _ & Hothers).
  rewrite Hothers; [reflexivity|discriminate].
Defined.

(** X11. [addUserToRoom] keeps join order: a socket the room does not hold
    is put at the end of the roster, which grows by one; a socket the room
    already holds keeps its place, and the roster keeps its sockets and its
    size. *)
Theorem addUserToRoom_join_order (h : Host.t RoomManager.t)
    (roomId socketId : string) (username : option string) :
  let user := evalState (RoomManager.addUserToRoom roomId socketId username) h in
  let h' := execState (RoomManager.addUserToRoom roomId socketId username) h in
  (evalState (RoomManager.getUser roomId socketId) h = None →
     evalState (RoomManager.getRoomUsers roomId) h'
     = evalState (RoomManager.getRoomUsers roomId) h ++ [user]
     ∧ roster_size roomId h' = roster_size roomId h + 1)
  ∧ (is_Some (evalState (RoomManager.getUser roomId socketId) h) →
     roster_sockets roomId h' = roster_sockets roomId h
     ∧ roster_size roomId h' = roster_size roomId h).
Proof.
  cbn zeta. unfold evalState, execState, roster_size, roster_sockets, RoomManager.roster.
  rewrite addUserToRoom_unfold. cbn zeta. cbn [fst snd].
  set (user := User.Build_t _ _ _ _ _).
  rewrite getUser_unfold, !getRoomUsers_unfold. cbn [fst].
  fold (room_at roomId h).
  fold (room_at roomId (with_room roomId
    (Room.set_users (JsMap.set socketId user)
       (default (fresh_room roomId (Host.clock h)) (room_at roomId h))) h)).
  rewrite room_at_with_room_eq. cbn.
  destruct (room_at roomId h) as [room|]; cbn.
  - split.
    + intros Hget. rewrite JsMap_set_absent by done.
      unfold JsMap.values, JsMap.size. rewrite fmap_app, length_app. cbn.
      split; [done|lia].
    + intros Hget. rewrite JsMap_set_present_keys by done.
      by rewrite JsMap_size_set_present.
  - split; [done|]. by intros [? ?].
Qed.

(** A second socket joins after the first. *)
Lemma addUserToRoom_join_order_witness :
  let h := execState (RoomManager.addUserToRoom "r1" "s1" None) (Host.start RoomManager.new) in
  User.id <$> evalState (RoomManager.getRoomUsers "r1")
                (execState (RoomManager.addUserToRoom "r1" "s2" None) h)
  = [ "s1"; "s2" ]%string.
Proof.
  cbn zeta.
  destruct (addUserToRoom_join_order
              (execState (RoomManager.addUserToRoom "r1" "s1" None)
                         (Host.start RoomManager.new)) "r1" "s2" None) as [Hnew _].
  destruct Hnew as [Husers _]; [reflexivity|].
  rewrite Husers. reflexivity.
Defined.

Lemma removeUserFromRoom_room_at (h : Host.t RoomManager.t) (roomId socketId : string)
    (room : Room.t) :
  room_at roomId h = Some room →
  room_at roomId (execState (RoomManager.removeUserFromRoom roomId socketId) h)
  = Some (Room.set_users (JsMap.delete socketId) room).
Proof.
  intros Hroom. unfold execState. rewrite removeUserFromRoom_unfold.
  unfold room_at in *. rewrite Hroom. cbn zeta. cbn [snd].
  destruct (_ =? 0); cbn; apply lookup_insert_eq.
Qed.

Lemma removeUserFromRoom_timers (h : Host.t RoomManager.t) (roomId socketId : string)
    (room : Room.t) :
  room_at roomId h = Some room →
  Host.timers (execState (RoomManager.removeUserFromRoom roomId socketId) h)
  = Host.timers h ++
    (if JsMap.size (JsMap.delete socketId (Room.users room)) =? 0
     then [cleanup_timer roomId (Host.clock h)] else []).
Proof.
  intros Hroom. unfold execState. rewrite removeUserFromRoom_unfold.
  unfold room_at in *. rewrite Hroom. cbn zeta. cbn [snd].
  destruct (_ =? 0); cbn; [done|by rewrite app_nil_r].
Qed.

Lemma removeUserFromRoom_absent (h : Host.t RoomManager.t) (roomId socketId : string) :
  room_at roomId h = None →
  execState (RoomManager.removeUserFromRoom roomId socketId) h = h.
Proof.
  intros Hroom. unfold execState. rewrite removeUserFromRoom_unfold.
  unfold room_at in *. by rewrite Hroom.
Qed.

(** X12. After [removeUserFromRoom] the room no longer holds the socket,
    answers for every other socket as before, and keeps its history; the
    call itself never removes the room. It arms one clean-up timer, five
    minutes ahead, exactly when the registry holds the room and the roster
    is empty after the removal, whether or not the socket was in it. *)
Theorem removeUserFromRoom_forgets (h : Host.t RoomManager.t) (roomId socketId : string) :
  let h' := execState (RoomManager.removeUserFromRoom roomId socketId) h in
  evalState (RoomManager.getUser roomId socketId) h' = None
  ∧ (∀ other : string, other ≠ socketId →
       evalState (RoomManager.getUser roomId other) h'
       = evalState (RoomManager.getUser roomId other) h)
  ∧ RoomManager.history roomId h' = RoomManager.history roomId h
  ∧ (is_Some (room_at roomId h') ↔ is_Some (room_at roomId h))
  ∧ Host.timers h' =
      Host.timers h ++
      (if bool_decide (is_Some (room_at roomId h) ∧ roster_size roomId h' = 0)
       then [cleanup_timer roomId (Host.clock h)] else []).
Proof.
  cbn zeta. destruct (room_at roomId h) as [room|] eqn:Hroom.
  - pose proof (removeUserFromRoom_room_at h roomId socketId room Hroom) as Hat.
    split; [|split; [|split; [|split]]].
    + unfold evalState. rewrite getUser_unfold, Hat. cbn. apply JsMap_get_delete_eq.
    + intros other Hother. unfold evalState. rewrite !getUser_unfold, Hat, Hroom. cbn.
      by apply JsMap_get_delete_ne.
    + unfold RoomManager.history. fold (room_at roomId h).
      fold (room_at roomId
              (execState (RoomManager.removeUserFromRoom roomId socketId) h)).
      by rewrite Hat, Hroom.
    + rewrite Hat. by split; eexists.
    + rewrite (removeUserFromRoom_timers h roomId socketId room Hroom).
      unfold roster_size. fold (room_at roomId
              (execState (RoomManager.removeUserFromRoom roomId socketId) h)).
      rewrite Hat. cbn.
      destruct (Z.eqb_spec (JsMap.size (JsMap.delete socketId (Room.users room))) 0).
      * by rewrite bool_decide_true by (split; [by eexists|done]).
      * by rewrite bool_decide_false by (by intros [_ ?]).
  - rewrite removeUserFromRoom_absent by done.
    split; [|split; [done|split; [done|split; [by rewrite Hroom|]]]].
    + unfold evalState. by rewrite getUser_unfold, Hroom.
    + rewrite bool_decide_false by (by intros [[? ?] _]). by rewrite app_nil_r.
Qed.

(** One of two users leaves: the other is still found, and no timer is
    armed. *)
Lemma removeUserFromRoom_forgets_witness :
  let h := RoomManager.run
             [ RoomManager.JoinRoom "r1" "s1" None; RoomManager.JoinRoom "r1" "s2" None ]
             (Host.start RoomManager.new) in
  let h' := execState (RoomManager.removeUserFromRoom "r1" "s1") h in
  User.id <$> evalState (RoomManager.getUser "r1" "s2") h' = Some "s2"%string
  ∧ Host.timers h' = [].
Proof.
  cbn zeta.
  destruct (removeUserFromRoom_forgets
              (RoomManager.run
                 [ RoomManager.JoinRoom "r1" "s1" None;
                   RoomManager.JoinRoom "r1" "s2" None ]
                 (Host.start RoomManager.new)) "r1" "s1") as (_ & Hothers & _ & _ & Htimers).
  split.
  - rewrite Hothers; [reflexivity|discriminate].
  - rewrite Htimers. reflexivity.
Defined.

(** X13. [updateUserCursor] for a socket the room holds changes that
    user's cursor and nothing else: the roster keeps its sockets in their
    order, every other socket its user and the room its history. For a
    socket or a room the registry does not hold it changes nothing. *)
Theorem updateUserCursor_moves_only_cursor (h : Host.t RoomManager.t)
    (roomId socketId : string) (cursor : Point) :
  let h' := execState (RoomManager.updateUserCursor roomId socketId cursor) h in
  match evalState (RoomManager.getUser roomId socketId) h with
  | Some user =>
      evalState (RoomManager.getUser roomId socketId) h'
        = Some (User.set_cursor cursor user)
      ∧ (∀ other : string, other ≠ socketId →
           evalState (RoomManager.getUser roomId other) h'
           = evalState (RoomManager.getUser roomId other) h)
      ∧ roster_sockets roomId h' = roster_sockets roomId h
      ∧ RoomManager.history roomId h' = RoomManager.history roomId h
      ∧ Host.timers h' = Host.timers h
  | None => h' = h
  end.
Proof.
  cbn zeta.
  destruct (evalState (RoomManager.getUser roomId socketId) h) as [user|] eqn:Hget;
    unfold evalState in Hget; rewrite getUser_unfold in Hget; cbn [fst] in Hget;
    destruct (room_at roomId h) as [room|] eqn:Hroom; cbn in Hget; try done.
  - assert (Hat : room_at roomId
        (execState (RoomManager.updateUserCursor roomId socketId cursor) h)
      = Some (Room.set_users (JsMap.set socketId (User.set_cursor cursor user)) room)).
    { unfold execState. rewrite updateUserCursor_unfold, Hroom, Hget.
      apply room_at_with_room_eq. }
    split; [|split; [|split; [|split]]].
    + unfold evalState. rewrite getUser_unfold, Hat. cbn. apply JsMap_get_set_eq.
    + intros other Hother. unfold evalState.
      rewrite !getUser_unfold, Hat, Hroom. cbn. by apply JsMap_get_set_ne.
    + unfold roster_sockets, RoomManager.roster. fold (room_at roomId h).
      fold (room_at roomId
              (execState (RoomManager.updateUserCursor roomId socketId cursor) h)).
      rewrite Hat, Hroom. cbn. f_equal. apply JsMap_set_present_keys. by eexists.
    + unfold RoomManager.history. fold (room_at roomId h).
      fold (room_at roomId
              (execState (RoomManager.updateUserCursor roomId socketId cursor) h)).
      by rewrite Hat, Hroom.
    + unfold execState. by rewrite updateUserCursor_unfold, Hroom, Hget.
  - unfold execState. by rewrite updateUserCursor_unfold, Hroom, Hget.
  - unfold execState. by rewrite updateUserCursor_unfold, Hroom.
Qed.

(** The cursor of the only user of a room moves. *)
Lemma updateUserCursor_moves_only_cursor_witness :
  let h := execState (RoomManager.addUserToRoom "r1" "s1" None) (Host.start RoomManager.new) in
  User.cursor <$> evalState (RoomManager.getUser "r1" "s1")
                    (execState (RoomManager.updateUserCursor "r1" "s1"
                                  {| pt_x := 7; pt_y := 9 |}) h)
  = Some {| pt_x := 7; pt_y := 9 |}.
Proof.
  cbn zeta.
  pose proof (updateUserCursor_moves_only_cursor
                (execState (RoomManager.addUserToRoom "r1" "s1" None)
                           (Host.start RoomManager.new)) "r1" "s1"
                {| pt_x := 7; pt_y := 9 |}) as Hmove.
  cbn zeta in Hmove.
  destruct (evalState (RoomManager.getUser "r1" "s1")
              (execState (RoomManager.addUserToRoom "r1" "s1" None)
                         (Host.start RoomManager.new))) as [user|] eqn:Huser.
  - destruct Hmove as (Hget & _). rewrite Hget. reflexivity.
  - discriminate Huser.
Defined.

(** ** The clean-up of empty rooms *)

Lemma JsMap_size_0 {V : Type} (m : list (string * V)) : JsMap.size m = 0 ↔ m = [].
Proof.
  unfold JsMap.size. destruct m; cbn; [done|]. split; [lia|done].
Qed.

(** What one clean-up check leaves under each room id. *)
Lemma cleanupRoom_room_at (h : Host.t RoomManager.t) (roomId k : string) :
  room_at k (execState (RoomManager.cleanupRoom roomId) h) =
    if decide (roomId = k)
    then match room_at k h with
         | Some room => if JsMap.size (Room.users room) =? 0 then None else Some room
         | None => None
         end
    else room_at k h.
Proof.
  unfold execState. rewrite cleanupRoom_unfold. fold (room_at roomId h).
  case_decide as Hk.
  - subst k. destruct (room_at roomId h) as [room|] eqn:Hroom; [|done].
    destruct (_ =? 0); [|done]. unfold room_at. cbn. apply lookup_delete_eq.
  - destruct (room_at roomId h) as [room|]; [|done].
    destruct (_ =? 0); [|done]. unfold room_at. cbn. by apply lookup_delete_ne.
Qed.

Lemma fire_cons (h : Host.t RoomManager.t) (tm : Timer) (due : list Timer) :
  execState (Host.fire RoomManager.run_callback (tm :: due)) h =
    execState (Host.fire RoomManager.run_callback due)
      (execState (RoomManager.run_callback (callback tm)) h).
Proof.
  unfold execState. cbn. unfold bind.
  by destruct (RoomManager.run_callback (callback tm) h).
Qed.

(** Running any clean-up checks leaves each room held unchanged or gone,
    and only rooms with nobody in them go. *)
Lemma fire_room_at (due : list Timer) (h : Host.t RoomManager.t) (k : string) :
  match room_at k h with
  | Some room =>
      room_at k (execState (Host.fire RoomManager.run_callback due) h) = Some room
      ∨ (room_at k (execState (Host.fire RoomManager.run_callback due) h) = None
         ∧ Room.users room = [])
  | None => room_at k (execState (Host.fire RoomManager.run_callback due) h) = None
  end.
Proof.
  revert h. induction due as [|[at_ [roomId]] due IH]; intros h.
  - cbn. destruct (room_at k h); [by left|done].
  - rewrite fire_cons. cbn [callback RoomManager.run_callback].
    specialize (IH (execState (RoomManager.cleanupRoom roomId) h)).
    rewrite cleanupRoom_room_at in IH.
    destruct (room_at k h) as [room|] eqn:Hroom.
    + case_decide; [|done].
      destruct (Z.eqb_spec (JsMap.size (Room.users room)) 0) as [Hsize|]; [|done].
      right. split; [done|]. by apply JsMap_size_0.
    + by case_decide.
Qed.

Lemma advance_unfold (h : Host.t RoomManager.t) (now : Z) :
  execState (Host.advance RoomManager.run_callback now) h =
    execState
      (Host.fire RoomManager.run_callback
         (filter (λ tm, Host.is_due (Z.max (Host.clock h) now) tm = true) (Host.timers h)))
      {| Host.this := Host.this h;
         Host.clock := Z.max (Host.clock h) now;
         Host.timers :=
           filter (λ tm, Host.is_due (Z.max (Host.clock h) now) tm = false)
                  (Host.timers h) |}.
Proof. unfold execState, Host.advance, bind, get, modify. by cbn. Qed.

Lemma time_room_at (h : Host.t RoomManager.t) (now : Z) (k : string) :
  match room_at k h with
  | Some room =>
      room_at k (execState (RoomManager.handle (RoomManager.TimePasses now)) h)
        = Some room
      ∨ (room_at k (execState (RoomManager.handle (RoomManager.TimePasses now)) h) = None
         ∧ Room.users room = [])
  | None =>
      room_at k (execState (RoomManager.handle (RoomManager.TimePasses now)) h) = None
  end.
Proof.
  cbn [RoomManager.handle]. rewrite advance_unfold.
  match goal with
  | |- context [execState _ ?h0] =>
      change (room_at k h) with (room_at k h0); apply fire_room_at
  end.
Qed.

(** X14. The passing of time only ever removes rooms with nobody in them:
    when the clock moves on and the due timers fire, each room the registry
    held is afterwards either held exactly as it was or gone, it is gone only
    if its roster was empty, and no room appears. *)
Theorem time_only_removes_empty_rooms (h : Host.t RoomManager.t) (now : Z)
    (roomId : string) :
  let h' := execState (Host.advance RoomManager.run_callback now) h in
  match room_at roomId h with
  | Some room =>
      room_at roomId h' = Some room
      ∨ (room_at roomId h' = None ∧ Room.users room = [])
  | None => room_at roomId h' = None
  end.
Proof.
  cbn zeta. rewrite advance_unfold.
  match goal with
  | |- context [execState _ ?h0] =>
      change (room_at roomId h) with (room_at roomId h0); apply fire_room_at
  end.
Qed.

(** Once a clean-up check for a room is among those run, a room with
    nobody in it is gone afterwards. *)
Lemma fire_removes_empty_room (due : list Timer) (h : Host.t RoomManager.t)
    (roomId : string) :
  CleanupRoom roomId ∈ callback <$> due →
  from_option (λ room, Room.users room = []) True (room_at roomId h) →
  room_at roomId (execState (Host.fire RoomManager.run_callback due) h) = None.
Proof.
  revert h. induction due as [|[at_ [r]] due IH]; intros h Hin Hempty.
  - by apply elem_of_nil in Hin.
  - rewrite fire_cons. cbn [callback RoomManager.run_callback].
    pose proof (cleanupRoom_room_at h r roomId) as Hstep.
    rewrite fmap_cons in Hin. cbn [callback] in Hin.
    apply elem_of_cons in Hin as [Heq|Hin].
    + injection Heq as <-. rewrite decide_True in Hstep by done.
      pose proof (fire_room_at due
        (execState (RoomManager.cleanupRoom roomId) h) roomId) as Hrest.
      destruct (room_at roomId h) as [room|]; cbn in Hempty.
      * rewrite Hempty in Hstep. cbn in Hstep. by rewrite Hstep in Hrest.
      * by rewrite Hstep in Hrest.
    + apply IH; [done|]. rewrite Hstep.
      case_decide; [|done].
      destruct (room_at roomId h) as [room|]; [|done]. cbn in Hempty.
      by rewrite Hempty.
Qed.

(** X15. A room with nobody in it is removed once a clean-up timer for it
    is due: if the registry holds the room with an empty roster and some
    pending timer for that room has its firing time at or before the new
    clock value, the room is gone after the clock has moved on. *)
Theorem due_timer_removes_empty_room (h : Host.t RoomManager.t) (now : Z)
    (roomId : string) (room : Room.t) (tm : Timer) :
  room_at roomId h = Some room →
  Room.users room = [] →
  tm ∈ Host.timers h →
  callback tm = CleanupRoom roomId →
  fireAt tm ≤ now →
  room_at roomId (execState (Host.advance RoomManager.run_callback now) h) = None.
Proof.
  intros Hroom Hempty Htm Hcb Hdue. rewrite advance_unfold.
  apply fire_removes_empty_room.
  - rewrite <- Hcb. apply list_elem_of_fmap. exists tm. split; [done|].
    apply list_elem_of_filter. split; [|done].
    unfold Host.is_due. apply Z.leb_le. lia.
  - unfold room_at in *. cbn. by rewrite Hroom.
Qed.

(** A room left by its only session is gone five minutes later. *)
Lemma due_timer_removes_empty_room_witness :
  let h := RoomManager.run
             [ RoomManager.JoinRoom "r1" "s1" None; RoomManager.Disconnect "r1" "s1" ]
             (Host.start RoomManager.new) in
  is_Some (room_at "r1" h)
  ∧ room_at "r1" (execState (Host.advance RoomManager.run_callback 300000) h) = None.
Proof.
  cbn zeta. split; [by vm_compute; eexists|].
  eapply (due_timer_removes_empty_room _ 300000 "r1" _ (cleanup_timer "r1" 0)).
  - by vm_compute.
  - reflexivity.
  - vm_compute. by left.
  - reflexivity.
  - vm_compute. discriminate.
Defined.

(** ** What every reachable registry satisfies *)

Lemma execState_bind {S A B : Type} (m : State S A) (k : A → State S B) (s : S) :
  execState (bind m k) s = execState (k (evalState m s)) (execState m s).
Proof. unfold execState, evalState, bind. by destruct (m s). Qed.

Lemma execState_ret {S A : Type} (a : A) (s : S) : execState (ret a) s = s.
Proof. done. Qed.

Lemma registry_ok_with_room (h : Host.t RoomManager.t) (roomId : string) (room : Room.t) :
  registry_ok h → room_ok roomId room → registry_ok (with_room roomId room h).
Proof.
  intros [Hpalette Hrooms] Hroom. split; [done|].
  intros k room'. destruct (decide (roomId = k)) as [->|Hne].
  - rewrite room_at_with_room_eq. by intros [= <-].
  - rewrite room_at_with_room_ne by done. apply Hrooms.
Qed.

Lemma fresh_room_ok (roomId : string) (now : Z) : room_ok roomId (fresh_room roomId now).
Proof.
  split; [done|]. split; [done|]. split.
  { unfold DrawingState.index_in_bounds, JsArray.len. cbn. lia. }
  split.
  { intros i op. cbn. by rewrite lookup_nil. }
  split; [apply NoDup_nil_2|].
  intros socketId user Hin. by apply elem_of_nil in Hin.
Qed.

(** The room a call works on: the one held, or a new one. *)
Lemma default_room_ok (h : Host.t RoomManager.t) (roomId : string) :
  registry_ok h →
  room_ok roomId (default (fresh_room roomId (Host.clock h)) (room_at roomId h)).
Proof.
  intros [_ Hrooms]. destruct (room_at roomId h) as [room|] eqn:Hroom; cbn.
  - by apply Hrooms.
  - apply fresh_room_ok.
Qed.

Lemma getRoom_ok (h : Host.t RoomManager.t) (roomId : string) :
  registry_ok h → registry_ok (execState (RoomManager.getRoom roomId) h).
Proof.
  intros Hok. unfold execState. rewrite getRoom_unfold.
  destruct (room_at roomId h); [done|].
  apply registry_ok_with_room; [done|apply fresh_room_ok].
Qed.

Lemma username_or_nonempty (username : option string) (n : Z) :
  RoomManager.username_or username n ≠ ""%string.
Proof. by destruct username as [[|a s]|]. Qed.

Lemma addUserToRoom_ok (h : Host.t RoomManager.t) (roomId socketId : string)
    (username : option string) :
  registry_ok h →
  registry_ok (execState (RoomManager.addUserToRoom roomId socketId username) h).
Proof.
  intros Hok. unfold execState. rewrite addUserToRoom_unfold. cbn zeta. cbn [snd].
  fold (room_at roomId h).
  pose proof (default_room_ok h roomId Hok) as (Hid & Hrid & Hb & Hids & Hnd & Husers).
  rewrite (proj1 Hok).
  set (room := default _ _) in *. set (user := User.Build_t _ _ _ _ _).
  assert (Huser : user_ok socketId user).
  { split; [done|]. split; [|apply username_or_nonempty].
    cbn [User.color user].
    assert (Hidx : 0 ≤ JsMap.size (Room.users room)
                     `mod` JsArray.len (RoomManager.userColors RoomManager.new)
                   < JsArray.len (RoomManager.userColors RoomManager.new)).
    { apply Z.mod_pos_bound. by vm_compute. }
    destruct (at_index_is_Some _ _ Hidx) as [c Hc]. exists c. split; [done|].
    rewrite at_index_lookup in Hc by apply Hidx.
    by apply list_elem_of_lookup_2 in Hc. }
  apply registry_ok_with_room; [done|].
  split; [done|]. split; [done|]. split; [done|]. split; [done|]. split.
  - by apply JsMap_set_keys_NoDup.
  - intros k u [[= -> ->]|Hin]%JsMap_set_elem; [done|by apply Husers].
Qed.

Lemma removeUserFromRoom_ok (h : Host.t RoomManager.t) (roomId socketId : string) :
  registry_ok h →
  registry_ok (execState (RoomManager.removeUserFromRoom roomId socketId) h).
Proof.
  intros Hok. destruct (room_at roomId h) as [room|] eqn:Hroom.
  - pose proof (proj2 Hok roomId room Hroom) as (Hid & Hrid & Hb & Hids & Hnd & Husers).
    assert (Hok' : registry_ok (with_room roomId
                     (Room.set_users (JsMap.delete socketId) room) h)).
    { apply registry_ok_with_room; [done|].
      split; [done|]. split; [done|]. split; [done|]. split; [done|]. split.
      - by apply JsMap_delete_keys_NoDup.
      - intros k u Hin%JsMap_delete_elem. by apply Husers. }
    unfold execState. rewrite removeUserFromRoom_unfold. fold (room_at roomId h).
    rewrite Hroom. cbn zeta. cbn [snd]. by destruct (_ =? 0).
  - by rewrite removeUserFromRoom_absent.
Qed.

Lemma updateUserCursor_ok (h : Host.t RoomManager.t) (roomId socketId : string)
    (cursor : Point) :
  registry_ok h →
  registry_ok (execState (RoomManager.updateUserCursor roomId socketId cursor) h).
Proof.
  intros Hok. unfold execState. rewrite updateUserCursor_unfold. cbn [snd].
  destruct (room_at roomId h) as [room|] eqn:Hroom; [|done].
  destruct (JsMap.get socketId (Room.users room)) as [user|] eqn:Huser; [|done].
  pose proof (proj2 Hok roomId room Hroom) as (Hid & Hrid & Hb & Hids & Hnd & Husers).
  apply registry_ok_with_room; [done|].
  split; [done|]. split; [done|]. split; [done|]. split; [done|]. split.
  - by apply JsMap_set_keys_NoDup.
  - intros k u [[= -> ->]|Hin]%JsMap_set_elem; [|by apply Husers].
    apply JsMap_get_Some, Husers in Huser. apply Huser.
Qed.

Lemma call_roomId (c : DrawingState.Call) (this : DrawingState.t) :
  DrawingState.roomId (execState (DrawingState.call c) this) = DrawingState.roomId this.
Proof.
  destruct c as [operation now| | | |]; unfold execState, DrawingState.call, bind.
  - by rewrite addOperation_unfold.
  - rewrite undo_unfold. by destruct (_ <? _).
  - rewrite redo_unfold. by destruct (_ >=? _).
  - by rewrite getFullState_unfold.
  - done.
Qed.

(** A call on a room's history keeps the registry well formed, if the call
    keeps the history well formed. *)
Lemma onDrawingState_ok {A : Type} (h : Host.t RoomManager.t) (roomId : string)
    (m : State DrawingState.t A) :
  (∀ this : DrawingState.t,
     DrawingState.index_in_bounds this → ids_are_positions this →
     DrawingState.roomId (execState m this) = DrawingState.roomId this
     ∧ DrawingState.index_in_bounds (execState m this)
     ∧ ids_are_positions (execState m this)) →
  registry_ok h →
  registry_ok (execState (RoomManager.onDrawingState roomId m) h).
Proof.
  intros Hm Hok. unfold execState at 1. rewrite onDrawingState_unfold. cbn zeta. cbn [snd].
  pose proof (default_room_ok h roomId Hok) as (Hid & Hrid & Hb & Hids & Hnd & Husers).
  destruct (Hm _ Hb Hids) as (Hrid' & Hb' & Hids').
  apply registry_ok_with_room; [done|].
  split; [exact Hid|]. split; [exact (eq_trans Hrid' Hrid)|].
  split; [exact Hb'|]. split; [exact Hids'|]. split; [exact Hnd|exact Husers].
Qed.

Lemma call_keeps_history_ok (c : DrawingState.Call) (this : DrawingState.t) :
  DrawingState.index_in_bounds this → ids_are_positions this →
  DrawingState.roomId (execState (DrawingState.call c) this) = DrawingState.roomId this
  ∧ DrawingState.index_in_bounds (execState (DrawingState.call c) this)
  ∧ ids_are_positions (execState (DrawingState.call c) this).
Proof.
  intros Hb Hids. split; [apply call_roomId|].
  split; [by apply call_in_bounds|by apply call_ids_are_positions].
Qed.

Lemma cleanupRoom_ok (h : Host.t RoomManager.t) (roomId : string) :
  registry_ok h → registry_ok (execState (RoomManager.cleanupRoom roomId) h).
Proof.
  intros [Hpalette Hrooms]. split.
  - unfold execState. rewrite cleanupRoom_unfold.
    destruct (_ !! roomId); [|done]. by destruct (_ =? 0).
  - intros k room. rewrite cleanupRoom_room_at. case_decide; [|apply Hrooms].
    destruct (room_at k h) as [room0|] eqn:Hroom0; [|done].
    destruct (_ =? 0); [done|]. intros [= <-]. by apply Hrooms.
Qed.

Lemma fire_ok (due : list Timer) (h : Host.t RoomManager.t) :
  registry_ok h → registry_ok (execState (Host.fire RoomManager.run_callback due) h).
Proof.
  revert h. induction due as [|[at_ [roomId]] due IH]; intros h Hok; [done|].
  rewrite fire_cons. apply IH. by apply cleanupRoom_ok.
Qed.

Lemma handle_ok (e : RoomManager.Event) (h : Host.t RoomManager.t) :
  registry_ok h → registry_ok (execState (RoomManager.handle e) h).
Proof.
  intros Hok. destruct e as [roomId socketId username|roomId socketId|roomId operation
    |roomId|roomId|roomId|roomId socketId cursor|now]; unfold RoomManager.handle.
  - rewrite !execState_bind, execState_ret.
    unfold execState at 1. rewrite getRoomUsers_unfold. cbn [snd].
    apply (onDrawingState_ok _ _ DrawingState.getFullState).
    + intros this Hb Hids.
      apply (call_keeps_history_ok DrawingState.CallGetFullState this Hb Hids).
    + by apply addUserToRoom_ok.
  - rewrite !execState_bind, execState_ret.
    unfold execState at 1. rewrite getRoomUsers_unfold. cbn [snd].
    by apply removeUserFromRoom_ok.
  - rewrite !execState_bind, execState_ret.
    apply (onDrawingState_ok _ _ (DrawingState.addOperation operation _)); [|done].
    intros this Hb Hids.
    pose proof (call_keeps_history_ok (DrawingState.CallAdd operation
      (evalState Host.Date_now h)) this Hb Hids) as Hcall.
    unfold execState, DrawingState.call, bind in *.
    by destruct (DrawingState.addOperation operation _ this).
  - rewrite !execState_bind, execState_ret.
    apply (onDrawingState_ok _ _ DrawingState.undo); [|done].
    intros this Hb Hids.
    pose proof (call_keeps_history_ok DrawingState.CallUndo this Hb Hids) as Hcall.
    unfold execState, DrawingState.call, bind in *.
    by destruct (DrawingState.undo this).
  - rewrite !execState_bind, execState_ret.
    apply (onDrawingState_ok _ _ DrawingState.redo); [|done].
    intros this Hb Hids.
    pose proof (call_keeps_history_ok DrawingState.CallRedo this Hb Hids) as Hcall.
    unfold execState, DrawingState.call, bind in *.
    by destruct (DrawingState.redo this).
  - apply (onDrawingState_ok _ _ DrawingState.clear); [|done].
    intros this Hb Hids.
    apply (call_keeps_history_ok DrawingState.CallClear this Hb Hids).
  - by apply updateUserCursor_ok.
  - rewrite advance_unfold. apply fire_ok. by destruct Hok.
Qed.

(** X16. Whatever joins, disconnections, strokes, undos, redos, clears,
    cursor moves and passages of time reach the server, every room the
    registry holds is well formed: the room and its history carry the id the
    room is held under, the history's index is within bounds and every
    stored operation's id is its position, no socket is in a roster twice,
    and every user in a roster carries its socket id, a palette colour and
    a name that is not empty. *)
Theorem reachable_registry_ok (es : list RoomManager.Event) :
  registry_ok (RoomManager.run es (Host.start RoomManager.new)).
Proof.
  unfold RoomManager.run. induction es as [|e es IH] using rev_ind.
  - split; [done|]. intros roomId room. unfold room_at. cbn.
    by rewrite lookup_empty.
  - rewrite foldl_app. cbn. by apply handle_ok.
Qed.

(** ** The socket handlers *)

Lemma in_room_joined (c : Server.Connection) (room : string)
    (k : string → State (Host.t RoomManager.t) (Server.Connection * list Server.Emission)) :
  Server.currentRoom c = Some room → room ≠ ""%string → Server.in_room c k = k room.
Proof. unfold Server.in_room. intros -> Hroom. by destruct room. Qed.

Lemma default_room_history (h : Host.t RoomManager.t) (roomId : string) :
  Room.drawingState (default (fresh_room roomId (Host.clock h)) (room_at roomId h))
  = history_or_new roomId h.
Proof.
  unfold history_or_new, RoomManager.history. fold (room_at roomId h).
  by destruct (room_at roomId h).
Qed.

(** A call on the history of a room: what it returns and what the room's
    history is afterwards. *)
Lemma onDrawingState_history {A : Type} (h : Host.t RoomManager.t) (roomId : string)
    (m : State DrawingState.t A) :
  evalState (RoomManager.onDrawingState roomId m) h = evalState m (history_or_new roomId h)
  ∧ RoomManager.history roomId (execState (RoomManager.onDrawingState roomId m) h)
    = Some (execState m (history_or_new roomId h))
  ∧ RoomManager.roster roomId (execState (RoomManager.onDrawingState roomId m) h)
    = Some (from_option Room.users [] (room_at roomId h))
  ∧ Host.clock (execState (RoomManager.onDrawingState roomId m) h) = Host.clock h
  ∧ Host.timers (execState (RoomManager.onDrawingState roomId m) h) = Host.timers h.
Proof.
  unfold evalState at 1, execState at 1 3 4 5. rewrite onDrawingState_unfold.
  cbn zeta. cbn [fst snd]. rewrite default_room_history.
  split; [done|]. unfold RoomManager.history, RoomManager.roster.
  fold (room_at roomId (with_room roomId (Room.set_drawingState
    (m (history_or_new roomId h)).2
    (default (fresh_room roomId (Host.clock h)) (room_at roomId h))) h)).
  rewrite room_at_with_room_eq. cbn.
  split; [done|]. split; [|done]. by destruct (room_at roomId h).
Qed.

(** X17. A connection that has not joined a room is ignored: every
    request other than [join-room] leaves the connection and the registry
    as they are and emits nothing. *)
Theorem requests_before_join_are_dropped (r : Server.Request) (c : Server.Connection)
    (h : Host.t RoomManager.t) :
  Server.currentRoom c = None →
  (∀ roomId username : option string, r ≠ Server.join_room roomId username) →
  Server.on r c h = ((c, []), h).
Proof.
  intros Hroom Hr.
  destruct r as [roomId username|data|data|cursor| | | |]; cbn;
    unfold Server.on_draw, Server.on_stroke_complete, Server.on_cursor_move,
      Server.on_undo, Server.on_redo, Server.on_clear_canvas, Server.on_disconnect,
      Server.in_room; rewrite ?Hroom; try done.
  by destruct (Hr roomId username).
Qed.

(** An undo sent on a new connection. *)
Lemma requests_before_join_are_dropped_witness :
  Server.on Server.undo (Server.connect "s1") (Host.start RoomManager.new)
  = ((Server.connect "s1", []), Host.start RoomManager.new).
Proof.
  apply requests_before_join_are_dropped.
  - reflexivity.
  - discriminate.
Defined.

Lemma evalState_bind {S A B : Type} (m : State S A) (k : A → State S B) (s : S) :
  evalState (bind m k) s = evalState (k (evalState m s)) (execState m s).
Proof. unfold execState, evalState, bind. by destruct (m s). Qed.

(** [addUserToRoom] keeps the history of the room, or starts it empty. *)
Lemma addUserToRoom_history (h : Host.t RoomManager.t) (roomId socketId : string)
    (username : option string) :
  RoomManager.history roomId
    (execState (RoomManager.addUserToRoom roomId socketId username) h)
  = Some (history_or_new roomId h).
Proof.
  unfold execState. rewrite addUserToRoom_unfold. cbn zeta. cbn [snd].
  unfold RoomManager.history at 1.
  match goal with
  | |- context [with_room roomId ?r h] =>
      fold (room_at roomId (with_room roomId r h))
  end.
  rewrite room_at_with_room_eq. cbn. fold (room_at roomId h).
  by rewrite default_room_history.
Qed.

Lemma history_or_new_Some (h : Host.t RoomManager.t) (roomId : string)
    (ds : DrawingState.t) :
  RoomManager.history roomId h = Some ds → history_or_new roomId h = ds.
Proof. unfold history_or_new. by intros ->. Qed.

Lemma getRoomUsers_roster (h : Host.t RoomManager.t) (roomId : string) :
  evalState (RoomManager.getRoomUsers roomId) h
  = from_option JsMap.values [] (RoomManager.roster roomId h).
Proof.
  unfold evalState. rewrite getRoomUsers_unfold. cbn [fst].
  unfold RoomManager.roster. fold (room_at roomId h). by destruct (room_at roomId h).
Qed.

Lemma getUser_roster (h : Host.t RoomManager.t) (roomId socketId : string) :
  evalState (RoomManager.getUser roomId socketId) h
  = RoomManager.roster roomId h ≫= JsMap.get socketId.
Proof.
  unfold evalState. rewrite getUser_unfold. cbn [fst].
  unfold RoomManager.roster. fold (room_at roomId h). by destruct (room_at roomId h).
Qed.

Lemma execState_getRoomUsers (h : Host.t RoomManager.t) (roomId : string) :
  execState (RoomManager.getRoomUsers roomId) h = h.
Proof. unfold execState. by rewrite getRoomUsers_unfold. Qed.

(** X18. A [join-room] request puts the socket in the room named, or in
    the room "default" when no name or an empty one is sent, and remembers
    room and user on the connection. It emits two events: to the sender
    [room-joined] with the new user, the roster and the snapshot of the
    room's history, and to the others in the room [user-joined] with the
    same user and roster. The roster sent contains the new user, and the
    room's history is what it was, or empty for a new room. *)
Theorem join_room_reply (roomId username : option string) (c : Server.Connection)
    (h : Host.t RoomManager.t) :
  let room := Server.string_or roomId "default" in
  let h' := Server.registry_after (Server.join_room roomId username) c h in
  let users := evalState (RoomManager.getRoomUsers room) h' in
  ∃ user : User.t,
    Server.connection_after (Server.join_room roomId username) c h =
      {| Server.socket_id := Server.socket_id c;
         Server.currentRoom := Some room;
         Server.currentUser := Some user |}
    ∧ Server.emitted (Server.join_room roomId username) c h =
        [ {| Server.target := Server.to_sender;
             Server.message :=
               Server.room_joined user users
                 (evalState DrawingState.getFullState (history_or_new room h)) |};
          {| Server.target := Server.to_others room;
             Server.message := Server.user_joined user users |} ]
    ∧ evalState (RoomManager.getUser room (Server.socket_id c)) h' = Some user
    ∧ user ∈ users
    ∧ RoomManager.history room h' = Some (history_or_new room h).
Proof.
  cbn zeta.
  unfold Server.connection_after, Server.emitted, Server.registry_after, Server.on,
    Server.on_join_room.
  set (room := Server.string_or roomId "default").
  set (add := RoomManager.addUserToRoom room (Server.socket_id c) username).
  rewrite !evalState_bind, !execState_bind, execState_ret, execState_getRoomUsers.
  set (h1 := execState add h).
  destruct (onDrawingState_history h1 room DrawingState.getFullState)
    as (Hfs & Hhist & Hroster & _ & _).
  set (h2 := execState (RoomManager.onDrawingState room DrawingState.getFullState) h1) in *.
  assert (Hh1 : history_or_new room h1 = history_or_new room h).
  { apply history_or_new_Some. apply addUserToRoom_history. }
  assert (Husers : RoomManager.roster room h2 = RoomManager.roster room h1).
  { rewrite Hroster. unfold RoomManager.roster. fold (room_at room h1).
    destruct (room_at room h1) as [r|] eqn:Hr; [done|].
    pose proof (addUserToRoom_history h room (Server.socket_id c) username) as Hsome.
    fold add in Hsome. fold h1 in Hsome. unfold RoomManager.history in Hsome.
    fold (room_at room h1) in Hsome. by rewrite Hr in Hsome. }
  destruct (addUserToRoom_finds_user h room (Server.socket_id c) username)
    as (Hget & Hin).
  fold add in Hget, Hin. fold h1 in Hget, Hin.
  exists (evalState add h). cbn [fst snd evalState ret].
  split; [done|]. split.
  { by rewrite Hfs, Hh1. }
  split.
  { rewrite getUser_roster, Husers, <- getUser_roster. unfold evalState at 1.
    by rewrite Hget. }
  split.
  { rewrite getRoomUsers_roster, Husers, <- getRoomUsers_roster. exact Hin. }
  rewrite Hhist, Hh1. unfold execState. by rewrite getFullState_unfold.
Qed.

(** X19. An [undo] or [redo] request of a joined connection calls the
    method on the room's history and broadcasts to the whole room exactly
    when the method returns a result, with that result's operation and new
    index; at the bottom of the history an undo emits nothing, and at the
    top a redo emits nothing. *)
Theorem undo_redo_requests (c : Server.Connection) (h : Host.t RoomManager.t)
    (room : string) :
  Server.currentRoom c = Some room → room ≠ ""%string →
  let ds := history_or_new room h in
  (Server.emitted Server.undo c h =
     match evalState DrawingState.undo ds with
     | Some result =>
         [ {| Server.target := Server.to_all room;
              Server.message :=
                Server.undo_operation (Server.socket_id c) (Server.username_of c)
                  (HistoryResult.operation result) (HistoryResult.newIndex result) |} ]
     | None => []
     end
   ∧ (Server.emitted Server.undo c h = [] ↔ DrawingState.currentIndex ds < 0)
   ∧ RoomManager.history room (Server.registry_after Server.undo c h)
     = Some (execState DrawingState.undo ds))
  ∧ (Server.emitted Server.redo c h =
       match evalState DrawingState.redo ds with
       | Some result =>
           [ {| Server.target := Server.to_all room;
                Server.message :=
                  Server.redo_operation (Server.socket_id c) (Server.username_of c)
                    (HistoryResult.operation result) (HistoryResult.newIndex result) |} ]
       | None => []
       end
     ∧ (Server.emitted Server.redo c h = [] ↔
          DrawingState.currentIndex ds >= JsArray.len (DrawingState.operations ds) - 1)
     ∧ RoomManager.history room (Server.registry_after Server.redo c h)
       = Some (execState DrawingState.redo ds)).
Proof.
  intros Hroom Hne ds. split.
  - destruct (onDrawingState_history h room DrawingState.undo) as (Hres & Hhist & _).
    assert (Hem : Server.emitted Server.undo c h =
      match evalState DrawingState.undo ds with
      | Some result =>
          [ {| Server.target := Server.to_all room;
               Server.message :=
                 Server.undo_operation (Server.socket_id c) (Server.username_of c)
                   (HistoryResult.operation result) (HistoryResult.newIndex result) |} ]
      | None => []
      end).
    { unfold Server.emitted, Server.on, Server.on_undo.
      rewrite (in_room_joined c room) by done. rewrite evalState_bind, Hres.
      fold ds. by destruct (evalState DrawingState.undo ds). }
    split; [exact Hem|]. split.
    + rewrite Hem. unfold evalState. rewrite undo_unfold.
      destruct (Z.ltb_spec (DrawingState.currentIndex ds) 0); cbn; [done|].
      split; [done|lia].
    + unfold Server.registry_after, Server.on, Server.on_undo.
      rewrite (in_room_joined c room) by done. rewrite execState_bind.
      destruct (evalState _ h); exact Hhist.
  - destruct (onDrawingState_history h room DrawingState.redo) as (Hres & Hhist & _).
    assert (Hem : Server.emitted Server.redo c h =
      match evalState DrawingState.redo ds with
      | Some result =>
          [ {| Server.target := Server.to_all room;
               Server.message :=
                 Server.redo_operation (Server.socket_id c) (Server.username_of c)
                   (HistoryResult.operation result) (HistoryResult.newIndex result) |} ]
      | None => []
      end).
    { unfold Server.emitted, Server.on, Server.on_redo.
      rewrite (in_room_joined c room) by done. rewrite evalState_bind, Hres.
      fold ds. by destruct (evalState DrawingState.redo ds). }
    split; [exact Hem|]. split.
    + rewrite Hem. unfold evalState. rewrite redo_unfold.
      destruct (Z.geb_spec (DrawingState.currentIndex ds)
                  (JsArray.len (DrawingState.operations ds) - 1)); cbn.
      * split; [lia|done].
      * split; [done|lia].
    + unfold Server.registry_after, Server.on, Server.on_redo.
      rewrite (in_room_joined c room) by done. rewrite execState_bind.
      destruct (evalState _ h); exact Hhist.
Qed.

(** A connection that has just joined a new room has nothing to undo. *)
Lemma undo_redo_requests_witness :
  let c := Server.connection_after (Server.join_room (Some "r1"%string) None)
             (Server.connect "s1") (Host.start RoomManager.new) in
  let h := Server.registry_after (Server.join_room (Some "r1"%string) None)
             (Server.connect "s1") (Host.start RoomManager.new) in
  Server.emitted Server.undo c h = [].
Proof.
  cbn zeta.
  destruct (undo_redo_requests
    (Server.connection_after (Server.join_room (Some "r1"%string) None)
       (Server.connect "s1") (Host.start RoomManager.new))
    (Server.registry_after (Server.join_room (Some "r1"%string) None)
       (Server.connect "s1") (Host.start RoomManager.new)) "r1")
    as [(_ & Hiff & _) _].
  - reflexivity.
  - discriminate.
  - apply Hiff. by vm_compute.
Defined.

(** X20. A [stroke-complete] request of a joined connection stores the
    stroke, stamped with the sender's socket id, name and colour, and
    broadcasts it to the whole room with the id under which it is stored:
    with the room's history within its index domain, that id is the old
    index plus one, the operation stored at that position is the one
    broadcast with the server's clock as timestamp, and it is the last
    stored operation and the new index. *)
Theorem stroke_complete_broadcast (c : Server.Connection) (h : Host.t RoomManager.t)
    (room : string) (data : Server.StrokeData) :
  Server.currentRoom c = Some room → room ≠ ""%string →
  DrawingState.index_in_bounds (history_or_new room h) →
  let ds := history_or_new room h in
  let operation :=
    {| Stroke.type := "stroke";
       Stroke.userId := Server.socket_id c;
       Stroke.username := Server.username_of c;
       Stroke.userColor := Server.color_of c;
       Stroke.tool := Server.data_tool data;
       Stroke.color := Server.data_color data;
       Stroke.lineWidth := Server.data_lineWidth data;
       Stroke.points := Server.data_points data |} in
  let added :=
    {| Operation.operation := operation;
       Operation.id := DrawingState.currentIndex ds + 1;
       Operation.timestamp := Host.clock h |} in
  Server.emitted (Server.stroke_complete data) c h =
    [ {| Server.target := Server.to_all room;
         Server.message :=
           Server.operation_added operation (DrawingState.currentIndex ds + 1) |} ]
  ∧ RoomManager.history room (Server.registry_after (Server.stroke_complete data) c h) =
      Some {| DrawingState.roomId := DrawingState.roomId ds;
              DrawingState.operations :=
                take (Z.to_nat (DrawingState.currentIndex ds + 1))
                     (DrawingState.operations ds) ++ [added];
              DrawingState.currentIndex := DrawingState.currentIndex ds + 1 |}
  ∧ (take (Z.to_nat (DrawingState.currentIndex ds + 1)) (DrawingState.operations ds)
       ++ [added]) !! Z.to_nat (DrawingState.currentIndex ds + 1) = Some added.
Proof.
  intros Hroom Hne Hb ds operation added.
  destruct (onDrawingState_history h room
              (DrawingState.addOperation operation (Host.clock h)))
    as (Hres & Hhist & _).
  fold ds in Hres, Hhist.
  assert (Hnow : evalState Host.Date_now h = Host.clock h) by done.
  assert (Hsame : execState Host.Date_now h = h) by done.
  split; [|split].
  - unfold Server.emitted, Server.on, Server.on_stroke_complete.
    rewrite (in_room_joined c room) by done.
    rewrite !evalState_bind, Hnow, Hsame. fold operation. rewrite Hres.
    unfold evalState at 2. by rewrite addOperation_normal_form.
  - unfold Server.registry_after, Server.on, Server.on_stroke_complete.
    rewrite (in_room_joined c room) by done.
    rewrite !execState_bind, execState_ret, Hnow, Hsame. fold operation.
    rewrite Hhist. unfold execState. by rewrite addOperation_normal_form.
  - unfold DrawingState.index_in_bounds in Hb. fold ds in Hb.
    apply list_lookup_middle. rewrite length_take_le; [done|].
    unfold JsArray.len in Hb. lia.
Qed.

(** The first stroke in a new room is broadcast with id 0. *)
Lemma stroke_complete_broadcast_witness :
  let c := Server.connection_after (Server.join_room (Some "r1"%string) None)
             (Server.connect "s1") (Host.start RoomManager.new) in
  let h := Server.registry_after (Server.join_room (Some "r1"%string) None)
             (Server.connect "s1") (Host.start RoomManager.new) in
  let data := {| Server.data_tool := "brush"; Server.data_color := "#000000";
                 Server.data_lineWidth := 3;
                 Server.data_points := [ {| pt_x := 1; pt_y := 2 |} ] |} in
  ∃ operation : Stroke.t,
    Server.emitted (Server.stroke_complete data) c h =
      [ {| Server.target := Server.to_all "r1";
           Server.message := Server.operation_added operation 0 |} ].
Proof.
  cbn zeta. eexists.
  destruct (stroke_complete_broadcast
    (Server.connection_after (Server.join_room (Some "r1"%string) None)
       (Server.connect "s1") (Host.start RoomManager.new))
    (Server.registry_after (Server.join_room (Some "r1"%string) None)
       (Server.connect "s1") (Host.start RoomManager.new)) "r1"
    {| Server.data_tool := "brush"; Server.data_color := "#000000";
       Server.data_lineWidth := 3;
       Server.data_points := [ {| pt_x := 1; pt_y := 2 |} ] |})
    as (Hem & _).
  - reflexivity.
  - discriminate.
  - unfold DrawingState.index_in_bounds. vm_compute. split; discriminate.
  - rewrite Hem. reflexivity.
Defined.

(** What a request does to the registry is what the event it amounts to
    does, and nothing when it amounts to none. *)
Lemma registry_after_event (r : Server.Request) (c : Server.Connection)
    (h : Host.t RoomManager.t) :
  Server.registry_after r c h =
    from_option (λ e, execState (RoomManager.handle e) h) h (event_of r c).
Proof.
  unfold Server.registry_after.
  destruct r as [roomId username|data|data|cursor| | | |]; cbn [event_of Server.on].
  - cbn [from_option RoomManager.handle]. unfold Server.on_join_room.
    by rewrite !execState_bind.
  - unfold Server.on_draw, Server.in_room.
    by destruct (Server.currentRoom c) as [[|a s]|].
  - unfold Server.on_stroke_complete, Server.in_room, joined_room.
    destruct (Server.currentRoom c) as [[|a s]|]; try done.
    cbn [fmap option_fmap option_map from_option RoomManager.handle].
    by rewrite !execState_bind.
  - unfold Server.on_cursor_move, Server.in_room, joined_room.
    destruct (Server.currentRoom c) as [[|a s]|]; try done.
    cbn [fmap option_fmap option_map from_option RoomManager.handle].
    by rewrite !execState_bind.
  - unfold Server.on_undo, Server.in_room, joined_room.
    destruct (Server.currentRoom c) as [[|a s]|]; try done.
    cbn [fmap option_fmap option_map from_option RoomManager.handle].
    rewrite !execState_bind. by destruct (evalState _ h).
  - unfold Server.on_redo, Server.in_room, joined_room.
    destruct (Server.currentRoom c) as [[|a s]|]; try done.
    cbn [fmap option_fmap option_map from_option RoomManager.handle].
    rewrite !execState_bind. by destruct (evalState _ h).
  - unfold Server.on_clear_canvas, Server.in_room, joined_room.
    destruct (Server.currentRoom c) as [[|a s]|]; try done.
    cbn [fmap option_fmap option_map from_option RoomManager.handle].
    by rewrite !execState_bind.
  - unfold Server.on_disconnect, joined_room.
    destruct (Server.currentRoom c) as [[|a s]|], (Server.currentUser c) as [user|];
      try done.
    cbn [fmap option_fmap option_map from_option RoomManager.handle].
    by rewrite !execState_bind.
Qed.

Lemma history_room_at (h : Host.t RoomManager.t) (roomId : string) :
  RoomManager.history roomId h = Room.drawingState <$> room_at roomId h.
Proof. done. Qed.

Lemma roster_room_at (h : Host.t RoomManager.t) (roomId : string) :
  RoomManager.roster roomId h = Room.users <$> room_at roomId h.
Proof. done. Qed.

(** An event about one room leaves every other room as it is. *)
Lemma handle_other (e : RoomManager.Event) (h : Host.t RoomManager.t)
    (roomId other : string) :
  event_room e = Some roomId → roomId ≠ other →
  room_at other (execState (RoomManager.handle e) h) = room_at other h.
Proof.
  intros He Hne.
  destruct e as [r socketId username|r socketId|r operation|r|r|r|r socketId cursor|now];
    cbn in He; try done; injection He as ->; unfold RoomManager.handle;
    rewrite ?execState_bind, ?execState_ret, ?execState_getRoomUsers.
  - rewrite onDrawingState_other by done. by apply addUserToRoom_other.
  - by apply removeUserFromRoom_other.
  - by apply onDrawingState_other.
  - by apply onDrawingState_other.
  - by apply onDrawingState_other.
  - by apply onDrawingState_other.
  - by apply updateUserCursor_other.
Qed.

Lemma event_of_room (r : Server.Request) (c : Server.Connection) (e : RoomManager.Event) :
  event_of r c = Some e → event_room e = addressed_room r c.
Proof.
  unfold joined_room.
  destruct r as [roomId username|data|data|cursor| | | |]; cbn; unfold joined_room.
  - by intros [= <-].
  - done.
  - destruct (Server.currentRoom c) as [[|a s]|]; cbn; try done. by intros [= <-].
  - destruct (Server.currentRoom c) as [[|a s]|]; cbn; try done. by intros [= <-].
  - destruct (Server.currentRoom c) as [[|a s]|]; cbn; try done. by intros [= <-].
  - destruct (Server.currentRoom c) as [[|a s]|]; cbn; try done. by intros [= <-].
  - destruct (Server.currentRoom c) as [[|a s]|]; cbn; try done. by intros [= <-].
  - destruct (Server.currentUser c); [|done].
    destruct (Server.currentRoom c) as [[|a s]|]; cbn; try done. by intros [= <-].
Qed.

(** X21. A request touches one room only: whatever a connection sends,
    every room other than the one named in a [join-room], or the
    connection's current room for the other requests, is afterwards held
    exactly as before. In particular joining a second room leaves the
    first as it was, with the socket still in its roster. *)
Theorem request_touches_one_room (r : Server.Request) (c : Server.Connection)
    (h : Host.t RoomManager.t) (other : string) :
  addressed_room r c ≠ Some other →
  room_at other (Server.registry_after r c h) = room_at other h.
Proof.
  intros Hother. rewrite registry_after_event.
  destruct (event_of r c) as [e|] eqn:He; cbn [from_option]; [|done].
  pose proof (event_of_room r c e He) as Hr. rewrite <- Hr in Hother.
  destruct (event_room e) as [roomId|] eqn:Hroom.
  - apply (handle_other e h roomId other Hroom). by intros ->.
  - destruct e; try done.
    destruct r; cbn in He; try done;
      destruct (joined_room c), (Server.currentUser c); done.
Qed.

(** A socket in room r1 joins room r2: r1 still lists it. *)
Lemma request_touches_one_room_witness :
  let c := Server.connection_after (Server.join_room (Some "r1"%string) None)
             (Server.connect "s1") (Host.start RoomManager.new) in
  let h := Server.registry_after (Server.join_room (Some "r1"%string) None)
             (Server.connect "s1") (Host.start RoomManager.new) in
  roster_sockets "r1" (Server.registry_after (Server.join_room (Some "r2"%string) None) c h)
  = Some [ "s1"%string ].
Proof.
  cbn zeta. unfold roster_sockets. rewrite roster_room_at.
  rewrite request_touches_one_room.
  - reflexivity.
  - cbn. discriminate.
Defined.

Lemma JsMap_delete_elem_ne {V : Type} (m : list (string * V)) (k k' : string) (v' : V) :
  (k', v') ∈ JsMap.delete k m → k' ≠ k.
Proof. unfold JsMap.delete. by intros [? _]%list_elem_of_filter. Qed.

Lemma removeUserFromRoom_history (h : Host.t RoomManager.t) (roomId socketId k : string) :
  RoomManager.history k (execState (RoomManager.removeUserFromRoom roomId socketId) h)
  = RoomManager.history k h.
Proof.
  rewrite !history_room_at. destruct (decide (roomId = k)) as [<-|Hne].
  - destruct (room_at roomId h) as [room|] eqn:Hroom.
    + by rewrite (removeUserFromRoom_room_at h roomId socketId room Hroom).
    + by rewrite removeUserFromRoom_absent, Hroom.
  - by rewrite removeUserFromRoom_other.
Qed.

Lemma updateUserCursor_history (h : Host.t RoomManager.t) (roomId socketId k : string)
    (cursor : Point) :
  RoomManager.history k (execState (RoomManager.updateUserCursor roomId socketId cursor) h)
  = RoomManager.history k h.
Proof.
  rewrite !history_room_at. destruct (decide (roomId = k)) as [<-|Hne].
  - unfold execState. rewrite updateUserCursor_unfold. cbn [snd].
    destruct (room_at roomId h) as [room|] eqn:Hroom; [|by rewrite Hroom].
    destruct (JsMap.get socketId (Room.users room)); [|by rewrite Hroom].
    by rewrite room_at_with_room_eq.
  - by rewrite updateUserCursor_other.
Qed.

(** X22. A [disconnect] of a joined connection takes the socket out of
    the roster of its current room and tells the others in that room, with
    the roster as it is after the removal; the room's history stays. In a
    well-formed registry no user of the roster sent carries the socket id
    of the connection that left. *)
Theorem disconnect_leaves_room (c : Server.Connection) (h : Host.t RoomManager.t)
    (room : string) (user : User.t) :
  Server.currentRoom c = Some room → room ≠ ""%string →
  Server.currentUser c = Some user →
  let h' := Server.registry_after Server.disconnect c h in
  Server.emitted Server.disconnect c h =
    [ {| Server.target := Server.to_others room;
         Server.message :=
           Server.user_left (Server.socket_id c) (User.username user)
             (evalState (RoomManager.getRoomUsers room) h') |} ]
  ∧ evalState (RoomManager.getUser room (Server.socket_id c)) h' = None
  ∧ RoomManager.history room h' = RoomManager.history room h
  ∧ (registry_ok h →
       Server.socket_id c ∉ User.id <$> evalState (RoomManager.getRoomUsers room) h').
Proof.
  intros Hroom Hne Huser h'.
  assert (Hh' : h' = execState (RoomManager.removeUserFromRoom room (Server.socket_id c)) h).
  { subst h'. unfold Server.registry_after, Server.on, Server.on_disconnect.
    rewrite Hroom, Huser. destruct room; [done|].
    by rewrite !execState_bind, execState_ret, execState_getRoomUsers. }
  split; [|split; [|split]].
  - unfold Server.emitted, Server.on, Server.on_disconnect.
    rewrite Hroom, Huser. destruct room; [done|].
    rewrite !evalState_bind, execState_getRoomUsers. by rewrite Hh'.
  - rewrite Hh'. unfold evalState. rewrite getUser_unfold. cbn [fst].
    destruct (room_at room h) as [r|] eqn:Hr.
    + rewrite (removeUserFromRoom_room_at h room _ r Hr). cbn.
      apply JsMap_get_delete_eq.
    + by rewrite removeUserFromRoom_absent, Hr.
  - rewrite Hh'. apply removeUserFromRoom_history.
  - intros Hok. rewrite Hh'. unfold evalState. rewrite getRoomUsers_unfold. cbn [fst].
    destruct (room_at room h) as [r|] eqn:Hr.
    + rewrite (removeUserFromRoom_room_at h room _ r Hr). cbn.
      unfold JsMap.values. rewrite <- list_fmap_compose.
      intros ([k u] & Hid & Hin)%list_elem_of_fmap. cbn in Hid.
      pose proof (JsMap_delete_elem_ne _ _ _ _ Hin) as Hk.
      apply JsMap_delete_elem in Hin.
      destruct (proj2 Hok room r Hr) as (_ & _ & _ & _ & _ & Husers).
      destruct (Husers k u Hin) as [Hu _]. congruence.
    + rewrite removeUserFromRoom_absent, Hr by done. cbn. apply not_elem_of_nil.
Qed.

(** The only session of a room leaves: nobody is left in the roster sent. *)
Lemma disconnect_leaves_room_witness :
  let c := Server.connection_after (Server.join_room (Some "r1"%string) None)
             (Server.connect "s1") (Host.start RoomManager.new) in
  let h := Server.registry_after (Server.join_room (Some "r1"%string) None)
             (Server.connect "s1") (Host.start RoomManager.new) in
  Server.emitted Server.disconnect c h =
    [ {| Server.target := Server.to_others "r1";
         Server.message := Server.user_left "s1" "User1" [] |} ].
Proof.
  cbn zeta.
  destruct (disconnect_leaves_room
    (Server.connection_after (Server.join_room (Some "r1"%string) None)
       (Server.connect "s1") (Host.start RoomManager.new))
    (Server.registry_after (Server.join_room (Some "r1"%string) None)
       (Server.connect "s1") (Host.start RoomManager.new)) "r1"
    (evalState (RoomManager.addUserToRoom "r1" "s1" None) (Host.start RoomManager.new)))
    as (Hem & _).
  - reflexivity.
  - discriminate.
  - reflexivity.
  - rewrite Hem. reflexivity.
Defined.

(** An event that is no stroke, undo, redo or clear keeps every history
    the registry holds. *)
Lemma handle_keeps_histories (e : RoomManager.Event) (h : Host.t RoomManager.t)
    (k : string) (ds : DrawingState.t) :
  match e with
  | RoomManager.JoinRoom _ _ _ | RoomManager.Disconnect _ _
  | RoomManager.CursorMove _ _ _ => True
  | _ => False
  end →
  RoomManager.history k h = Some ds →
  RoomManager.history k (execState (RoomManager.handle e) h) = Some ds.
Proof.
  intros He Hds.
  destruct e as [r socketId username|r socketId| | | | |r socketId cursor|]; try done;
    unfold RoomManager.handle;
    rewrite ?execState_bind, ?execState_ret, ?execState_getRoomUsers.
  - destruct (decide (r = k)) as [->|Hne].
    + destruct (onDrawingState_history
        (execState (RoomManager.addUserToRoom k socketId username) h) k
        DrawingState.getFullState) as (_ & -> & _).
      rewrite (history_or_new_Some _ _ (history_or_new k h))
        by apply addUserToRoom_history.
      rewrite (history_or_new_Some _ _ ds) by done.
      unfold execState. by rewrite getFullState_unfold.
    + rewrite history_room_at, onDrawingState_other, addUserToRoom_other by done.
      by rewrite <- history_room_at.
  - by rewrite removeUserFromRoom_history.
  - by rewrite updateUserCursor_history.
Qed.

(** X23. Only [stroke-complete], [undo], [redo] and [clear-canvas] change
    a history: a [join-room], [draw], [cursor-move] or [disconnect] request
    leaves the history of every room the registry holds as it is. Points
    relayed while a stroke is in progress are never stored. *)
Theorem other_requests_keep_histories (r : Server.Request) (c : Server.Connection)
    (h : Host.t RoomManager.t) (k : string) (ds : DrawingState.t) :
  edits_history r = false →
  RoomManager.history k h = Some ds →
  RoomManager.history k (Server.registry_after r c h) = Some ds.
Proof.
  intros Hr Hds. rewrite registry_after_event.
  destruct (event_of r c) as [e|] eqn:He; cbn [from_option]; [|done].
  apply handle_keeps_histories; [|done].
  destruct r; try done; cbn in He.
  - by injection He as <-.
  - destruct (joined_room c); cbn in He; [|done]. by injection He as <-.
  - destruct (Server.currentUser c); [|done].
    destruct (joined_room c); cbn in He; [|done]. by injection He as <-.
Qed.

(** A second session joining leaves the stored stroke in place. *)
Lemma other_requests_keep_histories_witness :
  let h := RoomManager.run
             [ RoomManager.JoinRoom "r1" "s1" None;
               RoomManager.StrokeComplete "r1" (stroke_by "s1") ]
             (Host.start RoomManager.new) in
  DrawingState.operations <$>
    RoomManager.history "r1"
      (Server.registry_after (Server.join_room (Some "r1"%string) None)
         (Server.connect "s2") h)
  = Some [ stored "s1" 0 0 ].
Proof.
  cbn zeta.
  rewrite (other_requests_keep_histories _ _ _ "r1"
             {| DrawingState.roomId := "r1";
                DrawingState.operations := [ stored "s1" 0 0 ];
                DrawingState.currentIndex := 0 |}).
  - reflexivity.
  - reflexivity.
  - by vm_compute.
Defined.

(** ** All connections together *)

Lemma listed_room_at (socketId roomId : string) (h : Host.t RoomManager.t) :
  listed socketId roomId h ↔
  ∃ room : Room.t,
    room_at roomId h = Some room ∧ is_Some (JsMap.get socketId (Room.users room)).
Proof.
  unfold listed. rewrite roster_room_at. split.
  - intros (users & Hroster & Hget).
    destruct (room_at roomId h) as [room|]; [|done].
    injection Hroster as <-. by exists room.
  - intros (room & -> & Hget). by exists (Room.users room).
Qed.

Lemma addUserToRoom_room_at (h : Host.t RoomManager.t) (roomId socketId : string)
    (username : option string) :
  ∃ user : User.t,
    room_at roomId (execState (RoomManager.addUserToRoom roomId socketId username) h)
    = Some (Room.set_users (JsMap.set socketId user)
              (default (fresh_room roomId (Host.clock h)) (room_at roomId h))).
Proof.
  unfold execState. rewrite addUserToRoom_unfold. cbn zeta. cbn [snd].
  eexists. fold (room_at roomId h). apply room_at_with_room_eq.
Qed.

Lemma onDrawingState_listed {A : Type} (h : Host.t RoomManager.t)
    (roomId k socketId : string) (m : State DrawingState.t A) :
  listed socketId k h →
  listed socketId k (execState (RoomManager.onDrawingState roomId m) h).
Proof.
  rewrite !listed_room_at. intros (room & Hroom & Hget).
  destruct (decide (roomId = k)) as [->|Hne].
  - unfold execState. rewrite onDrawingState_unfold. cbn zeta. cbn [snd].
    rewrite room_at_with_room_eq, Hroom. by eexists.
  - rewrite onDrawingState_other by done. by exists room.
Qed.

Lemma is_Some_get_set {V : Type} (m : list (string * V)) (k k' : string) (v : V) :
  is_Some (JsMap.get k' m) → is_Some (JsMap.get k' (JsMap.set k v m)).
Proof.
  intros Hget. destruct (decide (k = k')) as [->|Hne].
  - rewrite JsMap_get_set_eq. by eexists.
  - by rewrite JsMap_get_set_ne.
Qed.

Lemma JsMap_get_nonempty {V : Type} (m : list (string * V)) (k : string) :
  is_Some (JsMap.get k m) → m ≠ [].
Proof. intros [v Hv] ->. done. Qed.

(** No event other than the socket's own disconnection takes a socket off
    a roster. *)
Lemma handle_keeps_listed (e : RoomManager.Event) (h : Host.t RoomManager.t)
    (k socketId : string) :
  (∀ room : string, e ≠ RoomManager.Disconnect room socketId) →
  listed socketId k h →
  listed socketId k (execState (RoomManager.handle e) h).
Proof.
  intros He Hlisted.
  destruct e as [r s username|r s|r operation|r|r|r|r s cursor|now];
    unfold RoomManager.handle;
    rewrite ?execState_bind, ?execState_ret, ?execState_getRoomUsers;
    try by apply onDrawingState_listed.
  - apply onDrawingState_listed.
    apply listed_room_at in Hlisted as (room & Hroom & Hget). apply listed_room_at.
    destruct (decide (r = k)) as [->|Hne].
    + destruct (addUserToRoom_room_at h k s username) as [user ->].
      rewrite Hroom. eexists. split; [done|]. cbn. by apply is_Some_get_set.
    + rewrite addUserToRoom_other by done. by exists room.
  - apply listed_room_at in Hlisted as (room & Hroom & Hget). apply listed_room_at.
    destruct (decide (r = k)) as [->|Hne].
    + rewrite (removeUserFromRoom_room_at h k s room Hroom).
      eexists. split; [done|]. cbn. rewrite JsMap_get_delete_ne; [done|].
      intros ->. by apply (He k).
    + rewrite removeUserFromRoom_other by done. by exists room.
  - apply listed_room_at in Hlisted as (room & Hroom & Hget). apply listed_room_at.
    destruct (decide (r = k)) as [->|Hne].
    + unfold execState. rewrite updateUserCursor_unfold. cbn [snd]. rewrite Hroom.
      destruct (JsMap.get s (Room.users room)) as [user|]; [|by exists room].
      rewrite room_at_with_room_eq. eexists. split; [done|]. cbn.
      by apply is_Some_get_set.
    + rewrite updateUserCursor_other by done. by exists room.
  - apply listed_room_at in Hlisted as (room & Hroom & Hget). apply listed_room_at.
    exists room. split; [|done].
    pose proof (time_room_at h now k) as Htime. rewrite Hroom in Htime.
    destruct Htime as [?|[_ Hempty]]; [done|].
    by apply JsMap_get_nonempty in Hget.
Qed.

Lemma connection_after_unchanged (r : Server.Request) (c : Server.Connection)
    (h : Host.t RoomManager.t) :
  (∀ roomId username : option string, r ≠ Server.join_room roomId username) →
  Server.connection_after r c h = c.
Proof.
  intros Hr. unfold Server.connection_after.
  destruct r as [roomId username|data|data|cursor| | | |]; cbn [Server.on].
  - by destruct (Hr roomId username).
  - unfold Server.on_draw, Server.in_room.
    by destruct (Server.currentRoom c) as [[|a s]|].
  - unfold Server.on_stroke_complete, Server.in_room.
    destruct (Server.currentRoom c) as [[|a s]|]; try done.
    by rewrite !evalState_bind.
  - unfold Server.on_cursor_move, Server.in_room.
    destruct (Server.currentRoom c) as [[|a s]|]; try done.
    by rewrite !evalState_bind.
  - unfold Server.on_undo, Server.in_room.
    destruct (Server.currentRoom c) as [[|a s]|]; try done.
    rewrite !evalState_bind. by destruct (evalState _ h).
  - unfold Server.on_redo, Server.in_room.
    destruct (Server.currentRoom c) as [[|a s]|]; try done.
    rewrite !evalState_bind. by destruct (evalState _ h).
  - unfold Server.on_clear_canvas, Server.in_room.
    destruct (Server.currentRoom c) as [[|a s]|]; try done.
    by rewrite !evalState_bind.
  - unfold Server.on_disconnect.
    destruct (Server.currentRoom c) as [[|a s]|], (Server.currentUser c) as [user|];
      try done.
    by rewrite !evalState_bind.
Qed.

Lemma connection_after_join (roomId username : option string) (c : Server.Connection)
    (h : Host.t RoomManager.t) :
  Server.connection_after (Server.join_room roomId username) c h =
    {| Server.socket_id := Server.socket_id c;
       Server.currentRoom := Some (Server.string_or roomId "default");
       Server.currentUser :=
         Some (evalState (RoomManager.addUserToRoom (Server.string_or roomId "default")
                            (Server.socket_id c) username) h) |}.
Proof.
  unfold Server.connection_after, Server.on, Server.on_join_room.
  by rewrite !evalState_bind.
Qed.

Lemma string_or_default_nonempty (x : option string) :
  Server.string_or x "default" ≠ ""%string.
Proof. by destruct x as [[|a s]|]. Qed.

(** The socket that joins is on the roster afterwards. *)
Lemma handle_lists_joiner (h : Host.t RoomManager.t) (roomId socketId : string)
    (username : option string) :
  listed socketId roomId
    (execState (RoomManager.handle (RoomManager.JoinRoom roomId socketId username)) h).
Proof.
  unfold RoomManager.handle.
  rewrite !execState_bind, execState_ret, execState_getRoomUsers.
  apply onDrawingState_listed, listed_room_at.
  destruct (addUserToRoom_room_at h roomId socketId username) as [user ->].
  eexists. split; [done|]. cbn. rewrite JsMap_get_set_eq. by eexists.
Qed.

(** The only disconnection a request can amount to is the sender's own,
    and only a [disconnect] request amounts to one. *)
Lemma event_of_disconnect (r : Server.Request) (c : Server.Connection)
    (room socketId : string) :
  event_of r c = Some (RoomManager.Disconnect room socketId) →
  r = Server.disconnect ∧ socketId = Server.socket_id c.
Proof.
  destruct r; cbn; try done;
    try (destruct (joined_room c); cbn; done).
  destruct (Server.currentUser c); [|done].
  destruct (joined_room c); cbn; [|done]. by intros [= _ <-].
Qed.

Lemma registry_after_ok (r : Server.Request) (c : Server.Connection)
    (h : Host.t RoomManager.t) :
  registry_ok h → registry_ok (Server.registry_after r c h).
Proof.
  intros Hok. rewrite registry_after_event.
  destruct (event_of r c); cbn; [by apply handle_ok|done].
Qed.

Lemma registry_after_keeps_listed (r : Server.Request) (c : Server.Connection)
    (h : Host.t RoomManager.t) (k socketId : string) :
  (r = Server.disconnect → socketId ≠ Server.socket_id c) →
  listed socketId k h → listed socketId k (Server.registry_after r c h).
Proof.
  intros Hr Hlisted. rewrite registry_after_event.
  destruct (event_of r c) as [e|] eqn:He; cbn; [|done].
  apply handle_keeps_listed; [|done].
  intros room ->. apply event_of_disconnect in He as [-> ->]. by apply Hr.
Qed.

Lemma step_from_socket (socketId : string) (r : Server.Request) (w : World.t) :
  let c := default (Server.connect socketId) (World.connections w !! socketId) in
  (World.step (World.from_socket socketId r) w).1 =
    {| World.connections :=
         match r with
         | Server.disconnect => delete socketId (World.connections w)
         | _ => <[socketId := Server.connection_after r c (World.host w)]>
                  (World.connections w)
         end;
       World.host := Server.registry_after r c (World.host w) |}.
Proof.
  cbn zeta. unfold World.step, Server.connection_after, Server.registry_after,
    evalState, execState.
  by destruct (Server.on r _ (World.host w)) as [[c' out] h'].
Qed.

Lemma step_keeps_ok (i : World.Input) (w : World.t) :
  registry_ok (World.host w) ∧ connections_ok w →
  registry_ok (World.host (World.step i w).1) ∧ connections_ok (World.step i w).1.
Proof.
  intros [Hreg Hconn]. destruct i as [socketId r|now].
  - rewrite step_from_socket. cbn zeta.
    set (c := default (Server.connect socketId) (World.connections w !! socketId)).
    assert (Hc : Server.socket_id c = socketId
                 ∧ ∀ room, Server.currentRoom c = Some room →
                     room ≠ ""%string ∧ is_Some (Server.currentUser c)
                     ∧ listed socketId room (World.host w)).
    { subst c. destruct (World.connections w !! socketId) as [c0|] eqn:Hc0; cbn.
      - by apply Hconn.
      - split; [done|]. by intros room. }
    destruct Hc as [Hid Hjoined].
    split; [by apply registry_after_ok|].
    intros s c'' Hlookup. cbn [World.connections World.host] in *.
    destruct (decide (s = socketId)) as [->|Hs].
    + destruct r as [roomId username|data|data|cursor| | | |];
        try (rewrite lookup_insert_eq in Hlookup; injection Hlookup as <-;
             rewrite connection_after_unchanged by done;
             split; [done|]; intros room Hroom;
             destruct (Hjoined room Hroom) as (Hne & Huser & Hlisted);
             split; [done|]; split; [done|];
             by apply registry_after_keeps_listed).
      * rewrite lookup_insert_eq in Hlookup. injection Hlookup as <-.
        rewrite connection_after_join. cbn. split; [done|].
        intros room [= <-]. split; [apply string_or_default_nonempty|].
        split; [by eexists|].
        rewrite registry_after_event. cbn. rewrite Hid. apply handle_lists_joiner.
      * by rewrite lookup_delete_eq in Hlookup.
    + assert (Hold : World.connections w !! s = Some c'').
      { destruct r; by rewrite ?lookup_insert_ne, ?lookup_delete_ne in Hlookup. }
      destruct (Hconn s c'' Hold) as [Hid'' Hjoined''].
      split; [done|]. intros room Hroom.
      destruct (Hjoined'' room Hroom) as (Hne & Huser & Hlisted).
      split; [done|]. split; [done|].
      apply registry_after_keeps_listed; [|done]. intros _. by rewrite Hid.
  - cbn [World.step fst World.host World.connections].
    split; [by apply (handle_ok (RoomManager.TimePasses now))|].
    intros s c'' Hlookup. cbn [World.connections World.host] in *.
    destruct (Hconn s c'' Hlookup) as [Hid'' Hjoined''].
    split; [done|]. intros room Hroom.
    destruct (Hjoined'' room Hroom) as (Hne & Huser & Hlisted).
    split; [done|]. split; [done|].
    by apply (handle_keeps_listed (RoomManager.TimePasses now)).
Qed.

(** X24. Whatever requests arrive on whatever sockets, and however time
    passes in between, the registry stays well formed and every open
    connection that has joined a room is in the roster of that room: the
    room of a connected session is never cleaned up under it, and nothing
    but its own disconnection takes a session off the roster. *)
Theorem reachable_world_ok (inputs : list World.Input) :
  registry_ok (World.host (World.run inputs World.start))
  ∧ connections_ok (World.run inputs World.start).
Proof.
  unfold World.run. induction inputs as [|i inputs IH] using rev_ind.
  - split.
    + split; [done|]. intros roomId room. unfold room_at. cbn. by rewrite lookup_empty.
    + intros s c. cbn. by rewrite lookup_empty.
  - rewrite foldl_app. cbn [foldl]. by apply step_keeps_ok.
Qed.

(** ** Rooms between clean-up checks *)

Lemma fire_other_rooms (due : list Timer) (h : Host.t RoomManager.t) (roomId : string) :
  (∀ tm : Timer, tm ∈ due → callback tm ≠ CleanupRoom roomId) →
  room_at roomId (execState (Host.fire RoomManager.run_callback due) h) = room_at roomId h.
Proof.
  revert h. induction due as [|[at_ [r]] due IH]; intros h Hdue; [done|].
  rewrite fire_cons. cbn [callback RoomManager.run_callback].
  rewrite IH by (intros tm Hin; apply Hdue; by right).
  rewrite cleanupRoom_room_at. rewrite decide_False; [done|].
  intros ->. by apply (Hdue {| fireAt := at_; callback := CleanupRoom roomId |}); [left|].
Qed.

(** X25. A room is safe from the clean-up until a timer armed for it is
    due: if every pending clean-up timer of the room fires later than the
    new clock value, the passing of time leaves the room, empty or not,
    exactly as it was. *)
Theorem room_survives_until_timer_due (h : Host.t RoomManager.t) (now : Z)
    (roomId : string) :
  Host.clock h ≤ now →
  (∀ tm : Timer, tm ∈ Host.timers h → callback tm = CleanupRoom roomId →
     now < fireAt tm) →
  room_at roomId (execState (Host.advance RoomManager.run_callback now) h)
  = room_at roomId h.
Proof.
  intros Hclock Hlater. rewrite advance_unfold.
  rewrite fire_other_rooms; [done|].
  intros tm [Hdue Hin]%list_elem_of_filter Hcb.
  specialize (Hlater tm Hin Hcb).
  unfold Host.is_due in Hdue. apply Z.leb_le in Hdue. lia.
Qed.

(** A room left by its only session is still there one millisecond before
    the five minutes are over. *)
Lemma room_survives_until_timer_due_witness :
  let h := RoomManager.run
             [ RoomManager.JoinRoom "r1" "s1" None; RoomManager.Disconnect "r1" "s1" ]
             (Host.start RoomManager.new) in
  is_Some (room_at "r1" (execState (Host.advance RoomManager.run_callback 299999) h)).
Proof.
  cbn zeta. rewrite room_survives_until_timer_due.
  - vm_compute. by eexists.
  - vm_compute. discriminate.
  - intros tm Hin _. vm_compute in Hin.
    apply list_elem_of_singleton in Hin as ->. reflexivity.
Defined.

(** X26. A [clear-canvas] request of a joined connection leaves the room
    with an empty history, whatever it held and whatever had been undone,
    keeps the roster, and tells the whole room who cleared. *)
Theorem clear_canvas_request (c : Server.Connection) (h : Host.t RoomManager.t)
    (room : string) :
  Server.currentRoom c = Some room → room ≠ ""%string →
  let h' := Server.registry_after Server.clear_canvas c h in
  Server.emitted Server.clear_canvas c h =
    [ {| Server.target := Server.to_all room;
         Server.message :=
           Server.canvas_cleared (Server.socket_id c) (Server.username_of c) |} ]
  ∧ RoomManager.history room h' =
      Some (DrawingState.new (DrawingState.roomId (history_or_new room h)))
  ∧ evalState (RoomManager.getRoomUsers room) h'
    = evalState (RoomManager.getRoomUsers room) h
  ∧ Server.emitted Server.undo c h' = []
  ∧ Server.emitted Server.redo c h' = [].
Proof.
  intros Hroom Hne h'.
  destruct (onDrawingState_history h room DrawingState.clear)
    as (_ & Hhist & Hroster & _).
  assert (Hh' : h' = execState (RoomManager.onDrawingState room DrawingState.clear) h).
  { subst h'. unfold Server.registry_after, Server.on, Server.on_clear_canvas.
    rewrite (in_room_joined c room) by done.
    by rewrite execState_bind, execState_ret. }
  assert (Hcleared : RoomManager.history room h' =
            Some (DrawingState.new (DrawingState.roomId (history_or_new room h)))).
  { by rewrite Hh', Hhist. }
  split; [|split; [exact Hcleared|split; [|split]]].
  - unfold Server.emitted, Server.on, Server.on_clear_canvas.
    rewrite (in_room_joined c room) by done. by rewrite evalState_bind.
  - rewrite !getRoomUsers_roster, Hh', Hroster, roster_room_at.
    by destruct (room_at room h).
  - unfold Server.emitted, Server.on, Server.on_undo.
    rewrite (in_room_joined c room) by done. rewrite evalState_bind.
    destruct (onDrawingState_history h' room DrawingState.undo) as (-> & _).
    by rewrite (history_or_new_Some _ _ _ Hcleared).
  - unfold Server.emitted, Server.on, Server.on_redo.
    rewrite (in_room_joined c room) by done. rewrite evalState_bind.
    destruct (onDrawingState_history h' room DrawingState.redo) as (-> & _).
    by rewrite (history_or_new_Some _ _ _ Hcleared).
Qed.

(** Clearing a room with one stroke. *)
Lemma clear_canvas_request_witness :
  let c := Server.connection_after (Server.join_room (Some "r1"%string) None)
             (Server.connect "s1") (Host.start RoomManager.new) in
  let h := RoomManager.run
             [ RoomManager.JoinRoom "r1" "s1" None;
               RoomManager.StrokeComplete "r1" (stroke_by "s1") ]
             (Host.start RoomManager.new) in
  RoomManager.history "r1" (Server.registry_after Server.clear_canvas c h)
  = Some (DrawingState.new "r1").
Proof.
  cbn zeta.
  destruct (clear_canvas_request
    (Server.connection_after (Server.join_room (Some "r1"%string) None)
       (Server.connect "s1") (Host.start RoomManager.new))
    (RoomManager.run
       [ RoomManager.JoinRoom "r1" "s1" None;
         RoomManager.StrokeComplete "r1" (stroke_by "s1") ]
       (Host.start RoomManager.new)) "r1") as (_ & Hhist & _).
  - reflexivity.
  - discriminate.
  - rewrite Hhist. reflexivity.
Defined.
